(** * BIAY-Bot: the reading-plan parser and the daily announcer

    A shallow embedding of [generate_json.py] (the plan parser) and of the
    message path of [biay_bot.py] (the announcer), with the properties of
    the specification stated over it.

    Conventions of the embedding.
    - A Python [str] is a [string]; a character is a code point below 256
      and the character predicates follow CPython on that range.
    - A Python object that travels through JSON (dict, list, str, int,
      bool, None) is a [json] value; a dict is an association list in
      insertion order.  Floats are outside the model.
    - Exceptions are explicit: fallible code returns an [outcome], and code
      that also logs or sends runs in the monad [M], whose state is the
      trace of log calls and delivered messages.  Only subclasses of
      [Exception] are modelled, which is what [except Exception] catches. *)

From Stdlib Require Import Strings.String Strings.Ascii ZArith NArith List Bool Lia.
From Stdlib Require Import DecimalString.
Import ListNotations.

Local Open Scope string_scope.
Local Open Scope Z_scope.

(** ** Python built-ins used by the two programs *)

Module Py.

(** *** Exceptions *)

Inductive exn_class :=
| IndexError | ValueError | KeyError | TypeError
| FileNotFoundError | JSONDecodeError
| OtherException (name : string).

(** [exn_msg] is what [str(e)] returns. *)
Record exn := Exn { exn_cls : exn_class; exn_msg : string }.

Inductive outcome (A : Type) :=
| Ok (a : A)
| Raise (e : exn).
Arguments Ok {A} a.
Arguments Raise {A} e.

Definition obind {A B} (x : outcome A) (f : A -> outcome B) : outcome B :=
  match x with
  | Ok a => f a
  | Raise e => Raise e
  end.

Definition raises {A} (x : outcome A) : Prop := exists e, x = Raise e.

(** *** Characters and [str] methods *)

Definition code (c : ascii) : N := N_of_ascii c.

Definition between (lo hi : N) (c : ascii) : bool :=
  ((lo <=? code c) && (code c <=? hi))%N.

(** [str.isspace] on one character: TAB..CR, FS..US, space, NEL, NBSP. *)
Definition isspace (c : ascii) : bool :=
  between 9 13 c || between 28 32 c || (code c =? 133)%N || (code c =? 160)%N.

(** [str.lower] on one character: A-Z and the Latin-1 capitals (not the
    multiplication sign) move up by 32. *)
Definition lower_char (c : ascii) : ascii :=
  if between 65 90 c || (between 192 222 c && negb (code c =? 215)%N)
  then ascii_of_N (code c + 32)
  else c.

Fixpoint lower (s : string) : string :=
  match s with
  | EmptyString => EmptyString
  | String c s' => String (lower_char c) (lower s')
  end.

Fixpoint lstrip (s : string) : string :=
  match s with
  | EmptyString => EmptyString
  | String c s' => if isspace c then lstrip s' else s
  end.

Fixpoint rstrip (s : string) : string :=
  match s with
  | EmptyString => EmptyString
  | String c s' =>
      match rstrip s' with
      | EmptyString => if isspace c then EmptyString else String c EmptyString
      | r => String c r
      end
  end.

(** [s.strip()] *)
Definition strip (s : string) : string := rstrip (lstrip s).

(** [s.split()]: the maximal runs of non-space characters, in order.
    [tok] is the run being read. *)
Fixpoint split_from (tok s : string) : list string :=
  match s with
  | EmptyString => match tok with EmptyString => [] | _ => [tok] end
  | String c s' =>
      if isspace c
      then match tok with
           | EmptyString => split_from EmptyString s'
           | _ => tok :: split_from EmptyString s'
           end
      else split_from (tok ++ String c EmptyString) s'
  end.

Definition split (s : string) : list string := split_from EmptyString s.

(** [sep in s] for a one-character [sep]. *)
Fixpoint contains (sep : ascii) (s : string) : bool :=
  match s with
  | EmptyString => false
  | String c s' => Ascii.eqb c sep || contains sep s'
  end.

(** [s.split(sep)] for a one-character [sep]: never empty. *)
Fixpoint split_on (sep : ascii) (s : string) : list string :=
  match s with
  | EmptyString => [EmptyString]
  | String c s' =>
      if Ascii.eqb c sep then EmptyString :: split_on sep s'
      else match split_on sep s' with
           | h :: t => String c h :: t
           | [] => [String c EmptyString]
           end
  end.

(** [sep.join(l)] on strings. *)
Fixpoint join (sep : string) (l : list string) : string :=
  match l with
  | [] => EmptyString
  | [x] => x
  | x :: rest => x ++ sep ++ join sep rest
  end.

(** [str(n)] for an [int]. *)
Definition str_of_int (n : Z) : string := NilZero.string_of_int (Z.to_int n).

Definition hex_digit (n : N) : ascii :=
  if (n <? 10)%N then ascii_of_N (48 + n) else ascii_of_N (87 + n).

(** [repr(s)] for a [str]: double quotes only when the text has a single
    quote and no double quote; backslash escapes for the quote, the
    backslash, TAB, LF, CR; [\xhh] for the other unprintable characters. *)
Definition printable (c : ascii) : bool :=
  between 32 126 c || (between 161 255 c && negb (code c =? 173)%N).

Definition dquote : ascii := ascii_of_nat 34.

Definition repr_char (quote c : ascii) : string :=
  let bs := "\"%char in
  if Ascii.eqb c quote || Ascii.eqb c bs then String bs (String c EmptyString)
  else if (code c =? 9)%N then String bs "t"
  else if (code c =? 10)%N then String bs "n"
  else if (code c =? 13)%N then String bs "r"
  else if printable c then String c EmptyString
  else String bs (String "x" (String (hex_digit (code c / 16))
                                (String (hex_digit (code c mod 16)) EmptyString))).

Fixpoint repr_body (quote : ascii) (s : string) : string :=
  match s with
  | EmptyString => EmptyString
  | String c s' => repr_char quote c ++ repr_body quote s'
  end.

Definition repr_str (s : string) : string :=
  let quote := if contains "'" s && negb (contains dquote s) then dquote else "'"%char in
  String quote (repr_body quote s ++ String quote EmptyString).

(** *** [int(s)] on a [str]

    Surrounding white space, one optional sign, then decimal digits with
    single underscores between digits; more than [max_str_digits] digits
    are refused.  The class of the exception is CPython's; its text is
    CPython's for an invalid literal whose [repr] has at most 200
    characters (longer ones are cut there, and the digit limit has a text
    of its own). *)

Definition digit_val (c : ascii) : option Z :=
  if between 48 57 c then Some (Z.of_N (code c) - 48) else None.

Definition max_str_digits : nat := 4300.

Fixpoint int_digits (prev_underscore : bool) (acc : Z) (ndigits : nat)
         (s : string) : option (Z * nat) :=
  match s with
  | EmptyString => if prev_underscore then None else Some (acc, ndigits)
  | String c s' =>
      if Ascii.eqb c "_" then
        if prev_underscore then None else int_digits true acc ndigits s'
      else
        match digit_val c with
        | Some d => int_digits false (10 * acc + d) (S ndigits) s'
        | None => None
        end
  end.

Definition int_literal (s : string) : option Z :=
  let '(neg, body) :=
    match strip s with
    | String "-" r => (true, r)
    | String "+" r => (false, r)
    | r => (false, r)
    end in
  match int_digits true 0 0%nat body with
  | Some (n, k) =>
      if (k =? 0)%nat || (max_str_digits <? k)%nat then None
      else Some (if neg then - n else n)
  | None => None
  end.

Definition int (s : string) : outcome Z :=
  match int_literal s with
  | Some n => Ok n
  | None =>
      Raise (Exn ValueError
                 ("invalid literal for int() with base 10: " ++ repr_str s))
  end.

(** *** Lists *)

(** [l[i]] for [0 <= i]. *)
Definition getitem {A} (l : list A) (i : nat) : outcome A :=
  match nth_error l i with
  | Some x => Ok x
  | None => Raise (Exn IndexError "list index out of range")
  end.

(** *** Objects that travel through JSON *)

#[warnings="-register-all"]
Inductive json :=
| JNull
| JBool (b : bool)
| JInt (n : Z)
| JStr (s : string)
| JArr (l : list json)
| JObj (kvs : list (string * json)).

Definition type_name (v : json) : string :=
  match v with
  | JNull => "NoneType"
  | JBool _ => "bool"
  | JInt _ => "int"
  | JStr _ => "str"
  | JArr _ => "list"
  | JObj _ => "dict"
  end.

(** [repr(v)] *)
Fixpoint repr (v : json) : string :=
  match v with
  | JNull => "None"
  | JBool true => "True"
  | JBool false => "False"
  | JInt n => str_of_int n
  | JStr s => repr_str s
  | JArr l => "[" ++ join ", " (map repr l) ++ "]"
  | JObj kvs =>
      "{" ++ join ", " (map (fun '(k, v) => repr_str k ++ ": " ++ repr v) kvs) ++ "}"
  end.

(** [str(v)], which is also what an f-string field [{v}] inserts. *)
Definition str (v : json) : string :=
  match v with
  | JStr s => s
  | _ => repr v
  end.

(** [bool(v)] *)
Definition truthy (v : json) : bool :=
  match v with
  | JNull => false
  | JBool b => b
  | JInt n => negb (n =? 0)
  | JStr s => negb (String.eqb s EmptyString)
  | JArr l => match l with [] => false | _ => true end
  | JObj kvs => match kvs with [] => false | _ => true end
  end.

Fixpoint lookup (k : string) (kvs : list (string * json)) : option json :=
  match kvs with
  | [] => None
  | (k', v) :: rest => if String.eqb k' k then Some v else lookup k rest
  end.

(** [v[k]] for a [str] key [k]. *)
Definition subscript (v : json) (k : string) : outcome json :=
  match v with
  | JObj kvs =>
      match lookup k kvs with
      | Some x => Ok x
      | None => Raise (Exn KeyError (repr_str k))
      end
  | JArr _ =>
      Raise (Exn TypeError "list indices must be integers or slices, not str")
  | JStr _ =>
      Raise (Exn TypeError "string indices must be integers, not 'str'")
  | _ =>
      Raise (Exn TypeError ("'" ++ type_name v ++ "' object is not subscriptable"))
  end.

(** [v == n] for an [int] [n]: [True == 1] and [False == 0] hold. *)
Definition eq_int (v : json) (n : Z) : bool :=
  match v with
  | JInt m => m =? n
  | JBool b => (if b then 1 else 0) =? n
  | _ => false
  end.

(** [v == s] for a [str] [s]. *)
Definition eq_str (v : json) (s : string) : bool :=
  match v with
  | JStr t => String.eqb t s
  | _ => false
  end.

Fixpoint chars (s : string) : list json :=
  match s with
  | EmptyString => []
  | String c s' => JStr (String c EmptyString) :: chars s'
  end.

(** The items of [for x in v]. *)
Definition iter (v : json) : outcome (list json) :=
  match v with
  | JArr l => Ok l
  | JObj kvs => Ok (map (fun kv => JStr (fst kv)) kvs)
  | JStr s => Ok (chars s)
  | _ => Raise (Exn TypeError ("'" ++ type_name v ++ "' object is not iterable"))
  end.

(** [sep.join(l)] where [l] may hold any object: the first item that is not
    a [str] raises.  [i] is the index of the head of [l]. *)
Fixpoint join_items (sep : string) (i : nat) (l : list json) : outcome string :=
  match l with
  | [] => Ok EmptyString
  | x :: rest =>
      match x with
      | JStr s =>
          match rest with
          | [] => Ok s
          | _ => obind (join_items sep (S i) rest) (fun r => Ok (s ++ sep ++ r))
          end
      | _ =>
          Raise (Exn TypeError
                     ("sequence item " ++ str_of_int (Z.of_nat i)
                      ++ ": expected str instance, " ++ type_name x ++ " found"))
      end
  end.

(** *** Logging and delivery: the trace monad *)

Inductive level := DEBUG | INFO | WARNING | ERROR.

Inductive event :=
| Log (lv : level) (msg : string)
| Sent (channel_id : Z) (content : string).

Definition trace := list event.

Definition M (A : Type) : Type := trace -> outcome A * trace.

Definition ret {A} (a : A) : M A := fun t => (Ok a, t).

Definition bind {A B} (m : M A) (f : A -> M B) : M B :=
  fun t =>
    match m t with
    | (Ok a, t') => f a t'
    | (Raise e, t') => (Raise e, t')
    end.

Definition raise {A} (e : exn) : M A := fun t => (Raise e, t).

Definition lift {A} (x : outcome A) : M A := fun t => (x, t).

Definition log (lv : level) (msg : string) : M unit :=
  fun t => (Ok tt, (t ++ [Log lv msg])%list).

(** [try: body  except Exception as e: handler e] *)
Definition try_except {A} (body : M A) (handler : exn -> M A) : M A :=
  fun t =>
    match body t with
    | (Ok a, t') => (Ok a, t')
    | (Raise e, t') => handler e t'
    end.

(** *** Membership tests and counts *)

(** [s.startswith(prefix)] *)
Fixpoint startswith (prefix s : string) : bool :=
  match prefix, s with
  | EmptyString, _ => true
  | String _ _, EmptyString => false
  | String a prefix', String b s' => Ascii.eqb a b && startswith prefix' s'
  end.

(** [needle in hay] for two [str]: [needle] occurs in [hay]. *)
Fixpoint occurs_in (needle hay : string) : bool :=
  startswith needle hay
  || match hay with
     | EmptyString => false
     | String _ hay' => occurs_in needle hay'
     end.

(** [x in v] for a [str] [x]: a key of a dict, an item of a list, a piece
    of a [str]; the other objects are no containers. *)
Definition contains_item (x : string) (v : json) : outcome bool :=
  match v with
  | JObj kvs => Ok (match lookup x kvs with Some _ => true | None => false end)
  | JArr l => Ok (existsb (fun item => eq_str item x) l)
  | JStr s => Ok (occurs_in x s)
  | _ => Raise (Exn TypeError ("argument of type '" ++ type_name v ++ "' is not iterable"))
  end.

(** [s.count(c)] for a one-character [c]. *)
Fixpoint count_char (c : ascii) (s : string) : nat :=
  match s with
  | EmptyString => 0%nat
  | String a s' => ((if Ascii.eqb a c then 1 else 0) + count_char c s')%nat
  end.

(** [s.isspace()] or [s] is empty: nothing but white space. *)
Fixpoint all_space (s : string) : bool :=
  match s with
  | EmptyString => true
  | String c s' => isspace c && all_space s'
  end.

End Py.

Export Py.

Declare Scope py_scope.
Delimit Scope py_scope with py.
Notation "x <- m ;; k" := (bind m (fun x => k))
  (at level 61, m at next level, right associativity) : py_scope.
Notation "m ;; k" := (bind m (fun _ => k))
  (at level 61, right associativity) : py_scope.
Notation "x <~ m ;; k" := (obind m (fun x => k))
  (at level 61, m at next level, right associativity) : py_scope.
Notation "' p <- m ;; k" := (bind m (fun x => match x with p => k end))
  (at level 61, p pattern, m at next level, right associativity) : py_scope.
Notation "' p <~ m ;; k" := (obind m (fun x => match x with p => k end))
  (at level 61, p pattern, m at next level, right associativity) : py_scope.

Local Open Scope py_scope.

(** ** generate_json.py: the plan parser *)

Module GenerateJson.

(** [parse_scripture_reference]: the returned dict as the pair
    (chapters, verses).  The two-target assignment raises unless the split
    has exactly two parts. *)
Definition parse_scripture_reference (reference : string) : outcome (string * string) :=
  if contains ":" reference then
    match split_on ":" reference with
    | [chapters; verses] => Ok (chapters, verses)
    | [] | [_] =>
        Raise (Exn ValueError "not enough values to unpack (expected 2, got 1)")
    | _ => Raise (Exn ValueError "too many values to unpack (expected 2)")
    end
  else Ok (reference, "all").

Definition create_reading (book reference : string) : outcome json :=
  reference_data <~ parse_scripture_reference reference ;;
  Ok (JObj [("book", JStr book);
            ("chapters", JStr (fst reference_data));
            ("verses", JStr (snd reference_data))]).

Definition poem_books : list string := ["psalm"; "psalms"; "proverb"; "proverbs"].

(** [x in l] for a list of [str]. *)
Definition mem (x : string) (l : list string) : bool :=
  existsb (String.eqb x) l.

(** Lines 57-87: the day number and the three readings of a day line of at
    least four tokens, up to the dict [day_data]. *)
Definition day_data_of (current_period : string) (parts : list string)
  : outcome (Z * json) :=
  p1 <~ getitem parts 1 ;;
  day_number <~ int p1 ;;
  let first_reading := JNull in
  let second_reading := JNull in
  let poem := JNull in
  let i := 2%nat in
  (* Process first reading *)
  '(first_reading, i) <~
    (if (i <? length parts)%nat then
       b <~ getitem parts i ;;
       r <~ getitem parts (i + 1) ;;
       fr <~ create_reading b r ;;
       Ok (fr, (i + 2)%nat)
     else Ok (first_reading, i)) ;;
  (* Process second reading or poem *)
  '(second_reading, poem) <~
    (if (i <? length parts)%nat then
       b <~ getitem parts i ;;
       if mem (lower b) poem_books then
         r <~ getitem parts (i + 1) ;;
         pm <~ create_reading b r ;;
         Ok (second_reading, pm)
       else
         r <~ getitem parts (i + 1) ;;
         sr <~ create_reading b r ;;
         (* If there's still more, it must be a poem *)
         if (i + 2 <? length parts)%nat then
           b' <~ getitem parts (i + 2) ;;
           r' <~ getitem parts (i + 3) ;;
           pm <~ create_reading b' r' ;;
           Ok (sr, pm)
         else Ok (sr, poem)
     else Ok (second_reading, poem)) ;;
  Ok (day_number,
      JObj [("day", JInt day_number);
            ("period", JStr current_period);
            ("first_reading", first_reading);
            ("second_reading",
              if truthy second_reading then second_reading else JStr "none");
            ("poem", poem)]).

(** Lines 51-94: the [try] statement of one day line.  The value is the
    list [result] after the line. *)
Definition day_line (result : list json) (current_period line : string)
           (parts : list string) : M (list json) :=
  try_except
    (if (length parts <? 4)%nat then
       log WARNING ("Skipping malformed line: " ++ line) ;;
       ret result
     else
       '(day_number, day_data) <- lift (day_data_of current_period parts) ;;
       let result := (result ++ [day_data])%list in
       log DEBUG ("Processed Day " ++ str_of_int day_number ++ ": " ++ str day_data) ;;
       ret result)
    (fun e =>
       log ERROR ("Error processing line '" ++ line ++ "': " ++ exn_msg e) ;;
       ret result).

(** Lines 34-94: one turn of the loop over the lines.  The state is the
    pair of [result] and [current_period]. *)
Definition loop_body (st : list json * string) (line : string)
  : M (list json * string) :=
  let '(result, current_period) := st in
  let line := strip line in
  if String.eqb line "" then ret st
  else
    let parts := filter (fun part => negb (String.eqb part "")) (split line) in
    match parts with
    | [] => ret st
    | p0 :: _ =>
        if negb (String.eqb (lower p0) "day") then
          let current_period := strip line in
          log INFO ("New period detected: " ++ current_period) ;;
          ret (result, current_period)
        else
          result <- day_line result current_period line parts ;;
          ret (result, current_period)
    end.

(** [for x in l: st = body st x] *)
Fixpoint for_each {S A} (body : S -> A -> M S) (st : S) (l : list A) : M S :=
  match l with
  | [] => ret st
  | x :: rest => st' <- body st x ;; for_each body st' rest
  end.

(** [parse_text_to_json]: [file] is what [open(file_path).readlines()]
    gives; the value is the list that [json.dumps] writes out. *)
Definition parse_text_to_json (file : outcome (list string)) : M json :=
  lines <- lift file ;;
  log INFO ("Read " ++ str_of_int (Z.of_nat (length lines)) ++ " lines from the file.") ;;
  '(result, _) <- for_each loop_body ([], "") lines ;;
  ret (JArr result).

(** *** The parse, line by line

    The definitions below restate the loop as the specification words it:
    the tokens of a line, what a line is, the record a day line yields, and
    the records of a text in input order.  They are compared with
    [parse_text_to_json] in [parse_text_to_json_records]. *)

(** The whitespace-split tokens of the trimmed line. *)
Definition tokens (line : string) : list string :=
  filter (fun part => negb (String.eqb part "")) (split (strip line)).

(** A header line: its first token, lowercased, is not "day". *)
Definition is_header (line : string) : bool :=
  match tokens line with
  | p0 :: _ => negb (String.eqb (lower p0) "day")
  | [] => false
  end.

(** The record of a line read under [period], if the line yields one. *)
Definition line_record (period line : string) : option json :=
  if is_header line then None
  else
    match tokens line with
    | [] => None
    | parts =>
        if (length parts <? 4)%nat then None
        else match day_data_of period parts with
             | Ok (_, day_data) => Some day_data
             | Raise _ => None
             end
    end.

(** The records of the lines read from [period] on, in input order. *)
Fixpoint records (period : string) (lines : list string) : list json :=
  match lines with
  | [] => []
  | line :: rest =>
      if is_header line then records (strip line) rest
      else match line_record period line with
           | Some day_data => day_data :: records period rest
           | None => records period rest
           end
  end.

(** *** Writing the result out *)

(** The files written by the program, the latest first. *)
Definition written := list (string * json).

(** [save_json_to_file]: [write_error path] is the exception of
    [open(path, 'w')], if any; an open that fails leaves the files as they
    are.  Once the file is open the write and the close are taken to
    succeed: a write that fails half way, which would leave the file cut
    short, is outside the model.  The value is the store of written files
    after the call. *)
Definition save_json_to_file (write_error : string -> option exn)
           (json_str : json) (output_path : string) (disk : written) : M written :=
  match write_error output_path with
  | Some e => raise e
  | None =>
      let disk := (output_path, json_str) :: disk in
      log INFO ("Saved JSON output to " ++ output_path) ;;
      ret disk
  end.

(** Lines 106-117, the program: [read path] is what
    [open(path).readlines()] gives. *)
Definition main (read : string -> outcome (list string))
           (write_error : string -> option exn) (disk : written) : M written :=
  let input_file := "plan.txt" in
  let output_file := "reading_plan.json" in
  try_except
    (json_output <- parse_text_to_json (read input_file) ;;
     save_json_to_file write_error json_output output_file disk)
    (fun e =>
       match exn_cls e with
       | FileNotFoundError =>
           log ERROR ("Could not find input file: " ++ input_file) ;;
           ret disk
       | _ =>
           log ERROR ("An error occurred: " ++ exn_msg e) ;;
           ret disk
       end).

End GenerateJson.

(** ** biay_bot.py: the daily announcer *)

Module BiayBot.

Inductive month :=
| January | February | March | April | May | June
| July | August | September | October | November | December.

Record datetime := { year : Z; month_of : month; day_of : nat }.

Definition month_name (m : month) : string :=
  match m with
  | January => "January" | February => "February" | March => "March"
  | April => "April" | May => "May" | June => "June"
  | July => "July" | August => "August" | September => "September"
  | October => "October" | November => "November" | December => "December"
  end.

Definition is_leap (y : Z) : bool :=
  (y mod 4 =? 0) && (negb (y mod 100 =? 0) || (y mod 400 =? 0)).

Definition days_before_month (y : Z) (m : month) : Z :=
  let feb := if is_leap y then 29 else 28 in
  match m with
  | January => 0
  | February => 31
  | March => 31 + feb
  | April => 62 + feb
  | May => 92 + feb
  | June => 123 + feb
  | July => 153 + feb
  | August => 184 + feb
  | September => 215 + feb
  | October => 245 + feb
  | November => 276 + feb
  | December => 306 + feb
  end.

(** [date.timetuple().tm_yday] *)
Definition tm_yday (date : datetime) : Z :=
  days_before_month (year date) (month_of date) + Z.of_nat (day_of date).

(** [date.strftime('%B %d')] *)
Definition strftime_B_d (date : datetime) : string :=
  let d := str_of_int (Z.of_nat (day_of date)) in
  month_name (month_of date) ++ " "
  ++ (if (day_of date <? 10)%nat then "0" ++ d else d).

(** A channel: [send_result content] is [None] when the platform accepts
    the message and the exception of [await channel.send(content)]
    otherwise. *)
Record channel := { send_result : string -> option exn }.

(** The bot at one firing: its configuration, what opening and decoding
    the readings file gives, the clock, and what [client.get_channel]
    answers. *)
Record BibleBot := {
  json_path : string;
  channel_id : Z;
  bible_file : outcome json;
  now : datetime;
  get_channel : option channel
}.

Definition newline : string := String (ascii_of_nat 10) EmptyString.

Definition load_bible_data (self : BibleBot) : M json :=
  try_except
    (data <- lift (bible_file self) ;;
     log INFO ("Successfully loaded Bible data from " ++ json_path self) ;;
     ret data)
    (fun e =>
       match exn_cls e with
       | FileNotFoundError =>
           log ERROR ("Bible readings file not found at " ++ json_path self) ;;
           raise e
       | JSONDecodeError =>
           log ERROR ("Invalid JSON format in " ++ json_path self) ;;
           raise e
       | _ => raise e
       end).

Definition format_daily_message (entry : json) (date : datetime) : outcome string :=
  day <~ subscript entry "day" ;;
  period <~ subscript entry "period" ;;
  fr <~ subscript entry "first_reading" ;;
  book <~ subscript fr "book" ;;
  fr' <~ subscript entry "first_reading" ;;
  chapters <~ subscript fr' "chapters" ;;
  let message :=
    [JStr ("# Bible in a Year Day " ++ str day ++ " (" ++ strftime_B_d date ++ ") "
           ++ str period);
     JStr "";
     JStr "## Readings";
     JStr "";
     JStr "### First Reading";
     JStr (str book ++ " Chapter(s) " ++ str chapters)] in
  sr <~ subscript entry "second_reading" ;;
  message <~
    (if negb (eq_str sr "none") then
       sr' <~ subscript entry "second_reading" ;;
       Ok (message ++ [JStr ""; JStr "### Second Reading"; sr'])%list
     else Ok message) ;;
  pm <~ subscript entry "poem" ;;
  pbook <~ subscript pm "book" ;;
  pm' <~ subscript entry "poem" ;;
  pchapters <~ subscript pm' "chapters" ;;
  let message :=
    (message ++ [JStr ""; JStr "### Poem"; JStr (str pbook ++ " " ++ str pchapters)])%list in
  join_items newline 0 message.

(** [await channel.send(message)] *)
Definition channel_send (self : BibleBot) (ch : channel) (message : string) : M unit :=
  fun t =>
    match send_result ch message with
    | None => (Ok tt, (t ++ [Sent (channel_id self) message])%list)
    | Some e => (Raise e, t)
    end.

(** Lines 102-115: the [for ... else] over the entries. *)
Fixpoint scan (self : BibleBot) (today : datetime) (day_of_year : Z)
         (entries : list json) : M unit :=
  match entries with
  | [] => log WARNING ("No reading found for day " ++ str_of_int day_of_year)
  | entry :: rest =>
      d <- lift (subscript entry "day") ;;
      if eq_int d day_of_year then
        message <- lift (format_daily_message entry today) ;;
        match get_channel self with
        | None =>
            log ERROR ("Could not find channel with ID " ++ str_of_int (channel_id self))
        | Some ch =>
            channel_send self ch message ;;
            log INFO ("Successfully sent Bible reading for day " ++ str_of_int day_of_year)
        end
      else scan self today day_of_year rest
  end.

Definition send_bible_message (self : BibleBot) : M unit :=
  try_except
    (bible_data <- load_bible_data self ;;
     let today := now self in
     let day_of_year := tm_yday today in
     entries <- lift (iter bible_data) ;;
     scan self today day_of_year entries)
    (fun e => log ERROR ("Error sending Bible message: " ++ exn_msg e)).

(** *** Configuration *)

Definition required_fields : list string :=
  ["token"; "channel_id"; "timezone"; "json_file_path"].

(** Lines 45-47: the loop over the required fields. *)
Fixpoint check_fields (config : json) (fields : list string) : outcome unit :=
  match fields with
  | [] => Ok tt
  | field :: rest =>
      present <~ contains_item field config ;;
      if negb present then
        Raise (Exn KeyError (repr_str ("Missing required field in config: " ++ field)))
      else check_fields config rest
  end.

(** [load_config]: [config_file] is what opening and decoding the file at
    [config_path] gives. *)
Definition load_config (config_file : outcome json) (config_path : string)
  : outcome json :=
  match (config <~ config_file ;;
         _ <~ check_fields config required_fields ;;
         Ok config) with
  | Ok config => Ok config
  | Raise e =>
      match exn_cls e with
      | FileNotFoundError =>
          Raise (Exn FileNotFoundError ("Config file not found at " ++ config_path))
      | JSONDecodeError =>
          Raise (Exn ValueError ("Invalid JSON format in config file: " ++ config_path))
      | _ => Raise e
      end
  end.

(** [str(Path(s))] on a POSIX system: one leading slash, or two when the
    text starts with exactly two; the pieces between slashes without the
    empty ones and the dots; "." when nothing is left. *)
Definition posix_root (s : string) : string :=
  match s with
  | String "/" (String "/" (String "/" _)) => "/"
  | String "/" (String "/" _) => "//"
  | String "/" _ => "/"
  | _ => ""
  end.

Definition posix_parts (s : string) : list string :=
  filter (fun x => negb (String.eqb x "") && negb (String.eqb x "."))
         (split_on "/" s).

Definition posix_str (s : string) : string :=
  match posix_root s ++ join "/" (posix_parts s) with
  | EmptyString => "."
  | text => text
  end.

(** [Path(v)]: a path is held as its text [str(Path(v))]. *)
Definition Path (v : json) : outcome string :=
  match v with
  | JStr s => Ok (posix_str s)
  | _ =>
      Raise (Exn TypeError
                 ("expected str, bytes or os.PathLike object, not " ++ type_name v))
  end.

Section Init.

(** The time zones and [pytz.timezone]. *)
Variable tzinfo : Type.
Variable pytz_timezone : json -> outcome tzinfo.

(** The attributes that [__init__] reads from the configuration. *)
Record attributes := {
  self_config : json;
  self_token : json;
  self_channel_id : json;
  self_json_path : string;
  self_timezone : tzinfo
}.

(** Lines 15-19 of [__init__]. *)
Definition init (config_file : outcome json) (config_path : string)
  : outcome attributes :=
  config <~ load_config config_file config_path ;;
  token <~ subscript config "token" ;;
  channel_id <~ subscript config "channel_id" ;;
  p <~ subscript config "json_file_path" ;;
  json_path <~ Path p ;;
  z <~ subscript config "timezone" ;;
  timezone <~ pytz_timezone z ;;
  Ok {| self_config := config; self_token := token; self_channel_id := channel_id;
        self_json_path := json_path; self_timezone := timezone |}.

End Init.

End BiayBot.


Import GenerateJson BiayBot.

(** ** Vocabulary of the statements *)

(** A reading reference and a day record, as the parser builds them. *)
Definition reading (book chapters verses : string) : json :=
  JObj [("book", JStr book); ("chapters", JStr chapters); ("verses", JStr verses)].

Definition day_record (day : Z) (period : string) (first second poem : json) : json :=
  JObj [("day", JInt day); ("period", JStr period); ("first_reading", first);
        ("second_reading", second); ("poem", poem)].

Definition is_reading (v : json) : Prop :=
  exists book chapters verses, v = reading book chapters verses.

Definition second_reading_ok (r : json) : Prop :=
  exists second,
    subscript r "second_reading" = Ok second
    /\ (second = JStr "none" \/ is_reading second).

(** The error line of a dropped day line. *)
Definition error_line (line : string) (e : exn) : event :=
  Log ERROR ("Error processing line '" ++ line ++ "': " ++ exn_msg e).

(** The period in force after the lines. *)
Fixpoint period_after (period : string) (lines : list string) : string :=
  match lines with
  | [] => period
  | line :: rest => period_after (if is_header line then strip line else period) rest
  end.

(** The log lines of a firing. *)
Definition loaded (self : BibleBot) : event :=
  Log INFO ("Successfully loaded Bible data from " ++ json_path self).

Definition error_sending (e : exn) : event :=
  Log ERROR ("Error sending Bible message: " ++ exn_msg e).

Definition not_subscriptable : exn :=
  Exn TypeError "'NoneType' object is not subscriptable".

Definition dict_in_join : exn :=
  Exn TypeError "sequence item 8: expected str instance, dict found".

(** An entry whose [day] is not, or is, the day of the year of the firing. *)
Definition other_day (self : BibleBot) (entry : json) : Prop :=
  exists v, subscript entry "day" = Ok v /\ eq_int v (tm_yday (now self)) = false.

Definition this_day (self : BibleBot) (entry : json) : Prop :=
  exists v, subscript entry "day" = Ok v /\ eq_int v (tm_yday (now self)) = true.

(** What the firing does with the entry it has picked (lines 104-113),
    seen from outside the [try] statement. *)
Definition announce (self : BibleBot) (entry : json) (t : trace) : outcome unit * trace :=
  match format_daily_message entry (now self) with
  | Raise e => (Ok tt, t ++ [error_sending e])
  | Ok message =>
      match get_channel self with
      | None =>
          (Ok tt,
           t ++ [Log ERROR ("Could not find channel with ID "
                            ++ str_of_int (channel_id self))])
      | Some ch =>
          match send_result ch message with
          | Some e => (Ok tt, t ++ [error_sending e])
          | None =>
              (Ok tt,
               t ++ [Sent (channel_id self) message;
                     Log INFO ("Successfully sent Bible reading for day "
                               ++ str_of_int (tm_yday (now self)))])
          end
      end
  end%list.

(** *** Sample data *)

Definition sample_day (n : Z) (book : string) : json :=
  day_record n "Law" (reading book "1" "all") (JStr "none") (reading "Psalm" "1" "all").

Definition sample_bot (data : json) : BibleBot :=
  {| json_path := "reading_plan.json";
     channel_id := 42;
     bible_file := Ok data;
     now := {| year := 2024; month_of := January; day_of := 5 |};
     get_channel := Some {| send_result := fun _ => None |} |}.

Definition duplicate_days : BibleBot :=
  sample_bot (JArr ([sample_day 4 "Genesis"]
                    ++ sample_day 5 "Exodus" :: [sample_day 5 "Leviticus"])).

Definition no_day_five : BibleBot :=
  sample_bot (JArr [sample_day 4 "Genesis"; sample_day 6 "Exodus"]).

Definition four_token_day : BibleBot :=
  sample_bot (JArr ([sample_day 4 "Genesis"]
                    ++ day_record 5 "Law" (reading "Exodus" "2" "all") (JStr "none") JNull
                    :: [sample_day 5 "Leviticus"])).

(** *** Further vocabulary *)

(** The messages delivered in a trace, in order. *)
Fixpoint sent_events (t : trace) : list (Z * string) :=
  match t with
  | [] => []
  | Sent id content :: rest => (id, content) :: sent_events rest
  | Log _ _ :: rest => sent_events rest
  end.

(** A record as the parser writes it: the five fields, a first reading,
    a second reading or "none", a poem or null. *)
Definition well_shaped (r : json) : Prop :=
  exists n period first second poem,
    r = day_record n period first second poem
    /\ is_reading first
    /\ (second = JStr "none" \/ is_reading second)
    /\ (poem = JNull \/ is_reading poem).

(** A day line: not blank, and the first token is "day" in any case. *)
Definition is_day_line (line : string) : bool :=
  match tokens line with
  | p0 :: _ => String.eqb (lower p0) "day"
  | [] => false
  end.

(** The fields that [format_daily_message] reads, all there, with a
    [second_reading] that is a [str]. *)
Definition formattable (entry : json) : Prop :=
  exists day period first book chapters second poem pbook pchapters,
    subscript entry "day" = Ok day
    /\ subscript entry "period" = Ok period
    /\ subscript entry "first_reading" = Ok first
    /\ subscript first "book" = Ok book
    /\ subscript first "chapters" = Ok chapters
    /\ subscript entry "second_reading" = Ok (JStr second)
    /\ subscript entry "poem" = Ok poem
    /\ subscript poem "book" = Ok pbook
    /\ subscript poem "chapters" = Ok pchapters.

Definition days_in_month (y : Z) (m : month) : nat :=
  match m with
  | February => if is_leap y then 29 else 28
  | April | June | September | November => 30
  | _ => 31
  end%nat.

Definition valid_date (date : datetime) : Prop :=
  (1 <= day_of date <= days_in_month (year date) (month_of date))%nat.

(** The exception of [load_config] for a field that is not there. *)
Definition missing (field : string) : exn :=
  Exn KeyError (repr_str ("Missing required field in config: " ++ field)).

(** A configuration with the four fields. *)
Definition sample_config : json :=
  JObj [("token", JStr "secret"); ("channel_id", JInt 42);
        ("timezone", JStr "UTC"); ("json_file_path", JStr "reading_plan.json")].

(** The last log line of a successful run of the parser program. *)
Definition saved : event := Log INFO "Saved JSON output to reading_plan.json".

(** A file system with the one input file, where every write succeeds. *)
Definition sample_read (path : string) : outcome (list string) :=
  if String.eqb path "plan.txt" then Ok ["Law"; "Day 1 Genesis 1 Psalm 1"]
  else Raise (Exn FileNotFoundError "[Errno 2] No such file or directory").

Definition no_directory (path : string) : option exn :=
  Some (Exn FileNotFoundError "[Errno 2] No such file or directory").

(** A toy [pytz.timezone] that knows one zone. *)
Definition utc_only (v : json) : outcome string :=
  if eq_str v "UTC" then Ok "UTC"
  else Raise (Exn (OtherException "UnknownTimeZoneError") (repr v)).

(** *** Proof steps *)

Ltac step := cbn -[int create_reading mem lower poem_books].

Ltac through :=
  repeat match goal with
    | H : Ok _ = Ok _ |- _ => inversion H; subst; clear H
    | H : Raise _ = Ok _ |- _ => discriminate H
    | H : Ok _ = Raise _ |- _ => discriminate H
    | H : obind ?x _ = _ |- _ =>
        let E := fresh "E" in destruct x eqn:E; cbn [obind] in H
    | H : (let '(_, _) := ?x in _) = _ |- _ => destruct x
    | H : (if ?c then _ else _) = _ |- _ =>
        let E := fresh "E" in destruct c eqn:E
    end.

(** ** Strings *)

Section Strings.

Lemma rstrip_idem (s : string) : rstrip (rstrip s) = rstrip s.
Proof.
  induction s as [|c s IH]; simpl; [reflexivity|].
  destruct (rstrip s) as [|c' r] eqn:E.
  - destruct (isspace c) eqn:Hc; simpl; [reflexivity|].
    now rewrite Hc.
  - simpl in IH |- *. destruct (rstrip r) as [|c'' r'] eqn:E'.
    + destruct (isspace c'); [discriminate|]. now rewrite IH.
    + now rewrite IH.
Qed.

(** A text that does not start with a space keeps its first character
    under [rstrip]. *)
Lemma lstrip_rstrip_lstrip (s : string) :
  lstrip (rstrip (lstrip s)) = rstrip (lstrip s).
Proof.
  induction s as [|c s IH]; simpl; [reflexivity|].
  destruct (isspace c) eqn:Hc; [exact IH|].
  simpl. destruct (rstrip s); rewrite ?Hc; simpl; now rewrite Hc.
Qed.

Lemma strip_idem (s : string) : strip (strip s) = strip s.
Proof.
  unfold strip. now rewrite lstrip_rstrip_lstrip, rstrip_idem.
Qed.

Lemma contains_app sep (a b : string) :
  contains sep (a ++ b) = contains sep a || contains sep b.
Proof.
  induction a as [|c a IH]; simpl; [reflexivity|].
  now rewrite IH, orb_assoc.
Qed.

Lemma split_on_not_nil sep s : split_on sep s <> [].
Proof.
  destruct s as [|c s]; simpl; [discriminate|].
  destruct (Ascii.eqb c sep); [discriminate|].
  destruct (split_on sep s); discriminate.
Qed.

Lemma split_on_no_sep sep s : contains sep s = false -> split_on sep s = [s].
Proof.
  induction s as [|c s IH]; simpl; [reflexivity|].
  intros H. apply orb_false_elim in H as [Hc Hs].
  now rewrite Hc, (IH Hs).
Qed.

Lemma split_on_app sep (a b : string) :
  contains sep a = false ->
  split_on sep (a ++ String sep b) = a :: split_on sep b.
Proof.
  induction a as [|c a IH]; simpl; intros H.
  - now rewrite Ascii.eqb_refl.
  - apply orb_false_elim in H as [Hc Ha].
    now rewrite Hc, (IH Ha).
Qed.

(** Every separator adds a part. *)
Lemma split_on_app_length sep (a b : string) :
  (length (split_on sep b) < length (split_on sep (a ++ String sep b)))%nat.
Proof.
  induction a as [|c a IH]; simpl.
  - rewrite Ascii.eqb_refl. simpl. lia.
  - destruct (Ascii.eqb c sep); simpl; [lia|].
    destruct (split_on sep (a ++ String sep b)) eqn:E; simpl in *; lia.
Qed.

(** [split] yields no empty token, so the filter of the comprehension
    keeps them all. *)
Lemma split_from_nonempty s : forall tok,
  Forall (fun part => negb (String.eqb part "") = true) (split_from tok s).
Proof.
  induction s as [|c s IH]; intros tok; simpl.
  - destruct tok; repeat constructor.
  - destruct (isspace c).
    + destruct tok; [apply IH|]. constructor; [reflexivity|apply IH].
    + apply IH.
Qed.

Lemma filter_all {A} (f : A -> bool) (l : list A) :
  Forall (fun x => f x = true) l -> filter f l = l.
Proof.
  induction 1 as [|x l Hx _ IH]; simpl; [reflexivity|]. now rewrite Hx, IH.
Qed.

Lemma tokens_split line : tokens line = split (strip line).
Proof. apply filter_all, split_from_nonempty. Qed.

End Strings.

(** ** The plan parser *)

Section References.

Lemma parse_scripture_reference_plain (reference : string) :
  contains ":" reference = false ->
  parse_scripture_reference reference = Ok (reference, "all").
Proof.
  intros H. unfold parse_scripture_reference. now rewrite H.
Qed.

Lemma parse_scripture_reference_colon (chapters verses : string) :
  contains ":" chapters = false ->
  contains ":" verses = false ->
  parse_scripture_reference (chapters ++ ":" ++ verses) = Ok (chapters, verses).
Proof.
  intros Hc Hv. unfold parse_scripture_reference.
  rewrite contains_app. simpl contains. rewrite orb_true_r.
  simpl append at 1.
  now rewrite (split_on_app _ _ _ Hc), (split_on_no_sep _ _ Hv).
Qed.

Example parse_scripture_reference_3_5 :
  parse_scripture_reference "3:5" = Ok ("3", "5").
Proof. reflexivity. Qed.

Example parse_scripture_reference_3 :
  parse_scripture_reference "3" = Ok ("3", "all").
Proof. reflexivity. Qed.

Lemma create_reading_shape (book reference : string) (v : json) :
  create_reading book reference = Ok v ->
  exists chapters verses,
    v = JObj [("book", JStr book); ("chapters", JStr chapters); ("verses", JStr verses)].
Proof.
  unfold create_reading.
  destruct (parse_scripture_reference reference) as [[c vs]|e]; simpl; [|discriminate].
  intros H. injection H as <-. now exists c, vs.
Qed.

Lemma create_reading_truthy (book reference : string) (v : json) :
  create_reading book reference = Ok v -> truthy v = true.
Proof.
  intros H. destruct (create_reading_shape _ _ _ H) as (c & vs & ->). reflexivity.
Qed.

End References.

(** C4. A reference token with two colons or more is not split at its first
    colon: the two-target assignment of [parse_scripture_reference] raises
    ValueError, whatever stands around the colons (so "1:1-2:3" has no
    chapters and no verses). *)
Theorem parse_scripture_reference_two_colons (a b c : string) :
  parse_scripture_reference (a ++ ":" ++ b ++ ":" ++ c)
  = Raise (Exn ValueError "too many values to unpack (expected 2)").
Proof.
  unfold parse_scripture_reference.
  rewrite contains_app. simpl contains. rewrite orb_true_r.
  simpl append.
  pose proof (split_on_app_length ":" a (b ++ String ":" c)) as H1.
  pose proof (split_on_app_length ":" b c) as H2.
  pose proof (split_on_not_nil ":" c) as H3.
  destruct (split_on ":" c) as [|x0 l0]; [congruence|].
  destruct (split_on ":" (a ++ String ":" (b ++ String ":" c))) as [|x [|y [|z l]]];
    simpl in *; try lia.
  reflexivity.
Qed.

Section DayLine.

(** The [try] statement never lets an exception out. *)
Lemma day_line_run result period line parts t :
  day_line result period line parts t =
  if (length parts <? 4)%nat then
    (Ok result, t ++ [Log WARNING ("Skipping malformed line: " ++ line)])%list
  else
    match day_data_of period parts with
    | Ok (n, d) =>
        (Ok (result ++ [d]),
         t ++ [Log DEBUG ("Processed Day " ++ str_of_int n ++ ": " ++ str d)])%list
    | Raise e => (Ok result, t ++ [error_line line e])%list
    end.
Proof.
  unfold day_line, try_except, bind, lift, log, ret.
  destruct (length parts <? 4)%nat; [reflexivity|].
  destruct (day_data_of period parts) as [[n d]|e]; reflexivity.
Qed.

Lemma tokens_blank line : strip line = "" -> tokens line = [].
Proof. unfold tokens. now intros ->. Qed.

Lemma loop_body_run result period line t :
  loop_body (result, period) line t =
  match tokens line with
  | [] => (Ok (result, period), t)
  | p0 :: _ =>
      if negb (String.eqb (lower p0) "day") then
        (Ok (result, strip line),
         t ++ [Log INFO ("New period detected: " ++ strip line)])%list
      else
        match day_line result period (strip line) (tokens line) t with
        | (Ok result', t') => (Ok (result', period), t')
        | (Raise e, t') => (Raise e, t')
        end
  end.
Proof.
  unfold loop_body.
  destruct (String.eqb (strip line) "") eqn:E.
  - apply String.eqb_eq in E. now rewrite (tokens_blank _ E).
  - fold (tokens line). destruct (tokens line) as [|p0 ps]; [reflexivity|].
    destruct (negb (String.eqb (lower p0) "day")).
    + rewrite strip_idem. reflexivity.
    + reflexivity.
Qed.

(** One line: the loop goes on, with the record of the line appended if
    it has one and the period replaced if the line is a header. *)
Lemma loop_body_records result period line t :
  exists t',
    loop_body (result, period) line t =
    (Ok (result ++ match line_record period line with Some d => [d] | None => [] end,
         if is_header line then strip line else period), t')%list.
Proof.
  rewrite loop_body_run. unfold line_record, is_header.
  destruct (tokens line) as [|p0 ps] eqn:E.
  - exists t. now rewrite app_nil_r.
  - destruct (negb (String.eqb (lower p0) "day")).
    + eexists. now rewrite app_nil_r.
    + rewrite day_line_run.
      destruct (length (p0 :: ps) <? 4)%nat.
      * eexists. now rewrite app_nil_r.
      * destruct (day_data_of period (p0 :: ps)) as [[n d]|e]; eexists;
          rewrite ?app_nil_r; reflexivity.
Qed.

Lemma for_each_records lines : forall result period t,
  exists t',
    for_each loop_body (result, period) lines t =
    (Ok (result ++ records period lines, period_after period lines), t')%list.
Proof.
  induction lines as [|line rest IH]; intros result period t; cbn [for_each records period_after].
  - exists t. unfold ret. now rewrite app_nil_r.
  - unfold bind. destruct (loop_body_records result period line t) as [t1 ->].
    destruct (is_header line) eqn:Hh.
    + unfold line_record. rewrite Hh, app_nil_r. apply IH.
    + destruct (line_record period line) as [d|].
      * destruct (IH (result ++ [d])%list period t1) as [t2 ->].
        exists t2. now rewrite <- app_assoc.
      * rewrite app_nil_r. apply IH.
Qed.

(** [parse_text_to_json] returns the records of the text. *)
Lemma parse_text_to_json_records lines t :
  exists t',
    parse_text_to_json (Ok lines) t = (Ok (JArr (records "" lines)), t').
Proof.
  unfold parse_text_to_json, bind, lift, log, ret.
  destruct (for_each_records lines [] "" (t ++ [Log INFO
    ("Read " ++ str_of_int (Z.of_nat (length lines)) ++ " lines from the file.")])%list)
    as [t' ->].
  now exists t'.
Qed.

(** An unreadable file is the one thing the parse lets out. *)
Lemma parse_text_to_json_unreadable e t :
  parse_text_to_json (Raise e) t = (Raise e, t).
Proof. reflexivity. Qed.

Lemma records_app pre : forall period post,
  records period (pre ++ post)
  = (records period pre ++ records (period_after period pre) post)%list.
Proof.
  induction pre as [|line rest IH]; intros period post; simpl; [reflexivity|].
  destruct (is_header line); [apply IH|].
  destruct (line_record period line); simpl; now rewrite IH.
Qed.

End DayLine.

(** The day number and the readings of a day line, by the number of tokens
    after the first reading. *)
Section Readings.

Variables (period p0 p1 p2 p3 : string) (d : Z) (first : json).
Hypothesis day_numeric : int p1 = Ok d.
Hypothesis first_pair : create_reading p2 p3 = Ok first.

Let index_error : exn := Exn IndexError "list index out of range".

Lemma day_data_first_only :
  day_data_of period [p0; p1; p2; p3]
  = Ok (d, day_record d period first (JStr "none") JNull).
Proof.
  unfold day_data_of. step. rewrite day_numeric. step. rewrite first_pair. reflexivity.
Qed.

Lemma day_data_poem p4 p5 rest pm :
  mem (lower p4) poem_books = true ->
  create_reading p4 p5 = Ok pm ->
  day_data_of period (p0 :: p1 :: p2 :: p3 :: p4 :: p5 :: rest)
  = Ok (d, day_record d period first (JStr "none") pm).
Proof.
  intros Hb Hp. unfold day_data_of. step. rewrite day_numeric. step.
  rewrite first_pair. step. rewrite Hb. step. rewrite Hp. reflexivity.
Qed.

Lemma day_data_second p4 p5 sr :
  mem (lower p4) poem_books = false ->
  create_reading p4 p5 = Ok sr ->
  day_data_of period [p0; p1; p2; p3; p4; p5]
  = Ok (d, day_record d period first sr JNull).
Proof.
  intros Hb Hs. unfold day_data_of. step. rewrite day_numeric. step.
  rewrite first_pair. step. rewrite Hb. step. rewrite Hs. step.
  now rewrite (create_reading_truthy _ _ _ Hs).
Qed.

Lemma day_data_second_poem p4 p5 p6 p7 rest sr pm :
  mem (lower p4) poem_books = false ->
  create_reading p4 p5 = Ok sr ->
  create_reading p6 p7 = Ok pm ->
  day_data_of period (p0 :: p1 :: p2 :: p3 :: p4 :: p5 :: p6 :: p7 :: rest)
  = Ok (d, day_record d period first sr pm).
Proof.
  intros Hb Hs Hp. unfold day_data_of. step. rewrite day_numeric. step.
  rewrite first_pair. step. rewrite Hb. step. rewrite Hs. step. rewrite Hp. step.
  now rewrite (create_reading_truthy _ _ _ Hs).
Qed.

(** A book with no reference after the first reading. *)
Lemma day_data_five_tokens p4 :
  day_data_of period [p0; p1; p2; p3; p4] = Raise index_error.
Proof.
  unfold day_data_of. step. rewrite day_numeric. step. rewrite first_pair. step.
  destruct (mem (lower p4) poem_books); reflexivity.
Qed.

(** A book with no reference after the second reading. *)
Lemma day_data_seven_tokens p4 p5 p6 sr :
  mem (lower p4) poem_books = false ->
  create_reading p4 p5 = Ok sr ->
  day_data_of period [p0; p1; p2; p3; p4; p5; p6] = Raise index_error.
Proof.
  intros Hb Hs. unfold day_data_of. step. rewrite day_numeric. step.
  rewrite first_pair. step. rewrite Hb. step. rewrite Hs. reflexivity.
Qed.

End Readings.

Section Dropped.

Lemma create_reading_cases book reference :
  (exists v, create_reading book reference = Ok v)
  \/ (exists e, create_reading book reference = Raise e).
Proof.
  destruct (create_reading book reference) as [v|e]; [left|right]; eauto.
Qed.

Lemma day_data_raises_first period p0 p1 p2 p3 rest d e :
  int p1 = Ok d ->
  create_reading p2 p3 = Raise e ->
  day_data_of period (p0 :: p1 :: p2 :: p3 :: rest) = Raise e.
Proof.
  intros Hd Hf. unfold day_data_of. step. rewrite Hd. step. now rewrite Hf.
Qed.

Lemma day_data_raises_second period p0 p1 p2 p3 p4 p5 rest d first e :
  int p1 = Ok d ->
  create_reading p2 p3 = Ok first ->
  create_reading p4 p5 = Raise e ->
  day_data_of period (p0 :: p1 :: p2 :: p3 :: p4 :: p5 :: rest) = Raise e.
Proof.
  intros Hd Hf Hs. unfold day_data_of. step. rewrite Hd. step. rewrite Hf. step.
  destruct (mem (lower p4) poem_books); step; now rewrite Hs.
Qed.

(** A day line whose [try] body raises leaves [result] as it was and
    logs the error. *)
Lemma loop_body_dropped result period line p0 ps e t :
  tokens line = p0 :: ps ->
  lower p0 = "day" ->
  (4 <= length (p0 :: ps))%nat ->
  day_data_of period (p0 :: ps) = Raise e ->
  line_record period line = None
  /\ loop_body (result, period) line t
     = (Ok (result, period), t ++ [error_line (strip line) e])%list.
Proof.
  intros Ht Hl Hn Hr. split.
  - unfold line_record, is_header. rewrite Ht, Hl. cbn [String.eqb negb].
    simpl (negb _). cbv iota.
    destruct (length (p0 :: ps) <? 4)%nat eqn:E; [reflexivity|]. now rewrite Hr.
  - rewrite loop_body_run, Ht, Hl. simpl (negb _). cbv iota.
    rewrite day_line_run.
    destruct (length (p0 :: ps) <? 4)%nat eqn:E.
    + apply Nat.ltb_lt in E. lia.
    + now rewrite Hr.
Qed.

End Dropped.

(** C1. A day line of exactly five tokens with a numeric day token (a book
    with no reference after the first reading) yields no record:
    [parts[i + 1]] raises behind the guard [i < len(parts)], the handler
    logs the error, and [result] and the period are left as they were. *)
Theorem day_line_five_tokens_dropped result period line p0 p1 p2 p3 p4 d t :
  tokens line = [p0; p1; p2; p3; p4] ->
  lower p0 = "day" ->
  int p1 = Ok d ->
  line_record period line = None
  /\ exists e,
       loop_body (result, period) line t
       = (Ok (result, period), t ++ [error_line (strip line) e])%list.
Proof.
  intros Ht Hl Hd.
  destruct (create_reading_cases p2 p3) as [[fr Hf]|[e Hf]].
  - destruct (loop_body_dropped result period line p0 [p1; p2; p3; p4] _ t Ht Hl
                (le_S _ _ (le_n 4)) (day_data_five_tokens period p0 p1 p2 p3 d fr Hd Hf p4))
      as [H1 H2].
    split; [exact H1|eauto].
  - destruct (loop_body_dropped result period line p0 [p1; p2; p3; p4] _ t Ht Hl
                (le_S _ _ (le_n 4)) (day_data_raises_first period p0 p1 p2 p3 [p4] d e Hd Hf))
      as [H1 H2].
    split; [exact H1|eauto].
Qed.

Lemma day_line_five_tokens_dropped_witness :
  line_record "Law" "Day 1 Genesis 1 Psalm" = None
  /\ exists e,
       loop_body ([], "Law") "Day 1 Genesis 1 Psalm" []
       = (Ok ([], "Law"), [] ++ [error_line (strip "Day 1 Genesis 1 Psalm") e])%list.
Proof.
  apply (day_line_five_tokens_dropped [] "Law" "Day 1 Genesis 1 Psalm"
           "Day" "1" "Genesis" "1" "Psalm" 1 []); reflexivity.
Defined.

(** C3. A day line of exactly seven tokens whose fifth token is not a poem
    book (a second reading followed by a book with no reference) yields no
    record: [parts[i + 3]] raises behind the guard [i + 2 < len(parts)],
    after the second pair was read, and the handler drops the line. *)
Theorem day_line_seven_tokens_dropped result period line p0 p1 p2 p3 p4 p5 p6 d t :
  tokens line = [p0; p1; p2; p3; p4; p5; p6] ->
  lower p0 = "day" ->
  int p1 = Ok d ->
  mem (lower p4) poem_books = false ->
  line_record period line = None
  /\ exists e,
       loop_body (result, period) line t
       = (Ok (result, period), t ++ [error_line (strip line) e])%list.
Proof.
  intros Ht Hl Hd Hb.
  assert (Hn : (4 <= length [p0; p1; p2; p3; p4; p5; p6])%nat) by (simpl; lia).
  assert (exists e, day_data_of period [p0; p1; p2; p3; p4; p5; p6] = Raise e) as [e He].
  { destruct (create_reading_cases p2 p3) as [[fr Hf]|[e Hf]].
    - destruct (create_reading_cases p4 p5) as [[sr Hs]|[e Hs]].
      + eexists. exact (day_data_seven_tokens period p0 p1 p2 p3 d fr Hd Hf p4 p5 p6 sr Hb Hs).
      + exists e. exact (day_data_raises_second period p0 p1 p2 p3 p4 p5 [p6] d fr e Hd Hf Hs).
    - exists e. exact (day_data_raises_first period p0 p1 p2 p3 [p4; p5; p6] d e Hd Hf). }
  destruct (loop_body_dropped result period line p0 _ e t Ht Hl Hn He) as [H1 H2].
  split; [exact H1|eauto].
Qed.

Lemma day_line_seven_tokens_dropped_witness :
  line_record "Law" "Day 5 Exodus 2 Matthew 3 Proverbs" = None
  /\ exists e,
       loop_body ([], "Law") "Day 5 Exodus 2 Matthew 3 Proverbs" []
       = (Ok ([], "Law"),
          [] ++ [error_line (strip "Day 5 Exodus 2 Matthew 3 Proverbs") e])%list.
Proof.
  apply (day_line_seven_tokens_dropped [] "Law" "Day 5 Exodus 2 Matthew 3 Proverbs"
           "Day" "5" "Exodus" "2" "Matthew" "3" "Proverbs" 5 []); reflexivity.
Defined.

(** Where the pairs of a day line go when the line yields a record. *)
Section Pairs.

Variables (period line p0 p1 p2 p3 p4 p5 : string) (rest : list string).
Variables (d : Z) (first second : json).
Hypothesis line_tokens : tokens line = p0 :: p1 :: p2 :: p3 :: p4 :: p5 :: rest.
Hypothesis day_token : lower p0 = "day".
Hypothesis day_numeric : int p1 = Ok d.
Hypothesis first_pair : create_reading p2 p3 = Ok first.
Hypothesis second_pair : create_reading p4 p5 = Ok second.

Lemma line_record_day_data r :
  day_data_of period (tokens line) = Ok (d, r) -> line_record period line = Some r.
Proof.
  unfold line_record, is_header. rewrite line_tokens, day_token.
  intros ->. reflexivity.
Qed.

Lemma second_pair_is_poem :
  mem (lower p4) poem_books = true ->
  line_record period line = Some (day_record d period first (JStr "none") second).
Proof.
  intros Hb. apply line_record_day_data. rewrite line_tokens.
  now apply day_data_poem.
Qed.

Lemma second_pair_is_second_reading :
  mem (lower p4) poem_books = false ->
  rest = [] ->
  line_record period line = Some (day_record d period first second JNull).
Proof.
  intros Hb Hr. apply line_record_day_data. rewrite line_tokens, Hr.
  now apply day_data_second.
Qed.

Lemma third_pair_is_poem p6 p7 rest' poem :
  mem (lower p4) poem_books = false ->
  rest = p6 :: p7 :: rest' ->
  create_reading p6 p7 = Ok poem ->
  line_record period line = Some (day_record d period first second poem).
Proof.
  intros Hb Hr Hp. apply line_record_day_data. rewrite line_tokens, Hr.
  now apply day_data_second_poem.
Qed.

End Pairs.

Example day_5_record :
  exists t',
    parse_text_to_json (Ok ["Day 5 Exodus 2 Matthew 3 Proverbs 4"]) []
    = (Ok (JArr [day_record 5 "" (reading "Exodus" "2" "all")
                   (reading "Matthew" "3" "all") (reading "Proverbs" "4" "all")]), t').
Proof. eexists. reflexivity. Qed.

(** The shape of every record *)
Section Shape.

Lemma day_data_of_shape period parts n r :
  day_data_of period parts = Ok (n, r) ->
  exists first second poem,
    r = day_record n period first second poem
    /\ (second = JStr "none" \/ is_reading second).
Proof.
  unfold day_data_of. intros H. through;
    repeat match goal with
      | H : create_reading _ _ = Ok _ |- _ =>
          destruct (create_reading_shape _ _ _ H) as (? & ? & ->); clear H
      end;
    cbn [truthy]; do 3 eexists; (split; [reflexivity|]);
    solve [now left | right; do 3 eexists; reflexivity].
Qed.

Lemma day_data_of_raise_any_period period period' parts e :
  day_data_of period parts = Raise e -> day_data_of period' parts = Raise e.
Proof.
  unfold day_data_of.
  repeat match goal with
    | |- obind ?x _ = _ -> obind ?x _ = _ =>
        destruct x as [?|?]; cbn [obind]; [|exact (fun H => H)]
    | |- (let '(_, _) := ?x in _) = _ -> _ => destruct x
    end.
  discriminate.
Qed.

Lemma line_record_shape period line r :
  line_record period line = Some r ->
  exists n first second poem,
    r = day_record n period first second poem
    /\ (second = JStr "none" \/ is_reading second).
Proof.
  unfold line_record. destruct (is_header line); [discriminate|].
  destruct (tokens line) as [|p0 ps]; [discriminate|].
  destruct (length (p0 :: ps) <? 4)%nat; [discriminate|].
  destruct (day_data_of period (p0 :: ps)) as [[n d]|e] eqn:E; [|discriminate].
  intros H. injection H as <-. exists n. now apply day_data_of_shape with (parts := p0 :: ps).
Qed.

End Shape.

Section Periods.

Lemma is_header_tokens line p0 ps :
  tokens line = p0 :: ps -> lower p0 <> "day" -> is_header line = true.
Proof.
  intros Ht Hl. unfold is_header. rewrite Ht.
  destruct (String.eqb_spec (lower p0) "day"); [contradiction|reflexivity].
Qed.

Lemma loop_body_header result period line t :
  is_header line = true ->
  loop_body (result, period) line t
  = (Ok (result, strip line),
     t ++ [Log INFO ("New period detected: " ++ strip line)])%list.
Proof.
  unfold is_header. rewrite loop_body_run.
  destruct (tokens line) as [|p0 ps]; [discriminate|]. now intros ->.
Qed.

Lemma subscript_period n period first second poem :
  subscript (day_record n period first second poem) "period" = Ok (JStr period).
Proof. reflexivity. Qed.

(** Until the next header, every record carries the current period. *)
Lemma records_period rest : forall period,
  Forall (fun line => is_header line = false) rest ->
  Forall (fun r => subscript r "period" = Ok (JStr period)) (records period rest).
Proof.
  induction rest as [|line rest IH]; intros period H; simpl; [constructor|].
  inversion H as [|? ? Hl Hrest]; subst. rewrite Hl.
  destruct (line_record period line) as [r|] eqn:E; [|now apply IH].
  constructor; [|now apply IH].
  destruct (line_record_shape _ _ _ E) as (n & f & s & p & -> & _). reflexivity.
Qed.

Lemma records_second_reading lines : forall period,
  Forall second_reading_ok (records period lines).
Proof.
  induction lines as [|line rest IH]; intros period; simpl; [constructor|].
  destruct (is_header line); [apply IH|].
  destruct (line_record period line) as [r|] eqn:E; [|apply IH].
  constructor; [|apply IH].
  destruct (line_record_shape _ _ _ E) as (n & f & s & p & -> & Hs).
  exists s. split; [reflexivity|exact Hs].
Qed.

End Periods.

(** C5. A line whose first token, lowercased, is not "day" is a header: the
    loop stores the trimmed line as the current period and appends no
    record.  Every day line read after it, up to the next header, that
    yields a record appends it with that period and leaves the period as
    it is, so the loop over the header and the lines after it, and
    [parse_text_to_json] on them, end with the period of the header and
    with records that all carry it.  In particular "Law and History"
    followed by "Day 1 Genesis 1:3 Psalm 1" gives the one record of the
    specification. *)
Theorem header_sets_period result period header rest p0 ps t :
  tokens header = p0 :: ps ->
  lower p0 <> "day" ->
  Forall (fun line => is_header line = false) rest ->
  loop_body (result, period) header t
  = (Ok (result, strip header),
     t ++ [Log INFO ("New period detected: " ++ strip header)])%list
  /\ (forall result' line q0 qs n day_data t0,
        tokens line = q0 :: qs ->
        lower q0 = "day" ->
        (4 <= length (q0 :: qs))%nat ->
        day_data_of (strip header) (q0 :: qs) = Ok (n, day_data) ->
        loop_body (result', strip header) line t0
        = (Ok (result' ++ [day_data], strip header),
           t0 ++ [Log DEBUG ("Processed Day " ++ str_of_int n ++ ": " ++ str day_data)])%list
        /\ subscript day_data "period" = Ok (JStr (strip header)))
  /\ (exists t',
        for_each loop_body (result, period) (header :: rest) t
        = (Ok (result ++ records (strip header) rest, strip header), t'))%list
  /\ (exists t',
        parse_text_to_json (Ok (header :: rest)) t
        = (Ok (JArr (records (strip header) rest)), t'))
  /\ records period (header :: rest) = records (strip header) rest
  /\ Forall (fun r => subscript r "period" = Ok (JStr (strip header)))
            (records (strip header) rest)
  /\ exists t',
       parse_text_to_json
         (Ok ["Law and History" ++ newline; "Day 1 Genesis 1:3 Psalm 1" ++ newline]) []
       = (Ok (JArr [day_record 1 "Law and History" (reading "Genesis" "1" "3")
                      (JStr "none") (reading "Psalm" "1" "all")]), t').
Proof.
  intros Ht Hl Hrest.
  pose proof (is_header_tokens _ _ _ Ht Hl) as Hh.
  assert (E : forall q, records q (header :: rest) = records (strip header) rest)
    by (intros q; simpl; now rewrite Hh).
  assert (P : forall q, period_after q (header :: rest) = strip header).
  { intros q. simpl. rewrite Hh. clear - Hrest.
    induction Hrest as [|line rest Hline _ IH]; simpl; [reflexivity|]. now rewrite Hline. }
  split; [now apply loop_body_header|].
  split.
  { intros result' line q0 qs n day_data t0 Hq Hday Hlen Hdata. split.
    - rewrite loop_body_run, Hq, Hday. simpl (negb _). cbv iota.
      rewrite day_line_run, Hdata.
      destruct (length (q0 :: qs) <? 4)%nat eqn:Hn; [|reflexivity].
      apply Nat.ltb_lt in Hn. lia.
    - destruct (day_data_of_shape _ _ _ _ Hdata) as (f & sr & pm & -> & _). reflexivity. }
  split.
  { destruct (for_each_records (header :: rest) result period t) as [t' H].
    exists t'. now rewrite H, E, P. }
  split.
  { destruct (parse_text_to_json_records (header :: rest) t) as [t' H].
    exists t'. now rewrite H, E. }
  split; [apply E|]. split; [now apply records_period|eexists; reflexivity].
Qed.

Lemma header_sets_period_witness :
  loop_body ([], "") "Law and History" []
  = (Ok ([], strip "Law and History"),
     [] ++ [Log INFO ("New period detected: " ++ strip "Law and History")])%list
  /\ (forall result' line q0 qs n day_data t0,
        tokens line = q0 :: qs ->
        lower q0 = "day" ->
        (4 <= length (q0 :: qs))%nat ->
        day_data_of (strip "Law and History") (q0 :: qs) = Ok (n, day_data) ->
        loop_body (result', strip "Law and History") line t0
        = (Ok (result' ++ [day_data], strip "Law and History"),
           t0 ++ [Log DEBUG ("Processed Day " ++ str_of_int n ++ ": " ++ str day_data)])%list
        /\ subscript day_data "period" = Ok (JStr (strip "Law and History")))
  /\ (exists t',
        for_each loop_body ([], "")
          ("Law and History" :: ["Day 1 Genesis 1:3 Psalm 1"; "Day 2 Genesis 2 Psalm 2"]) []
        = (Ok ([] ++ records (strip "Law and History")
                       ["Day 1 Genesis 1:3 Psalm 1"; "Day 2 Genesis 2 Psalm 2"],
               strip "Law and History"), t'))%list
  /\ (exists t',
        parse_text_to_json
          (Ok ("Law and History" :: ["Day 1 Genesis 1:3 Psalm 1"; "Day 2 Genesis 2 Psalm 2"])) []
        = (Ok (JArr (records (strip "Law and History")
                       ["Day 1 Genesis 1:3 Psalm 1"; "Day 2 Genesis 2 Psalm 2"])), t'))
  /\ records "" ("Law and History" :: ["Day 1 Genesis 1:3 Psalm 1"; "Day 2 Genesis 2 Psalm 2"])
     = records (strip "Law and History")
         ["Day 1 Genesis 1:3 Psalm 1"; "Day 2 Genesis 2 Psalm 2"]
  /\ Forall (fun r => subscript r "period" = Ok (JStr (strip "Law and History")))
            (records (strip "Law and History")
               ["Day 1 Genesis 1:3 Psalm 1"; "Day 2 Genesis 2 Psalm 2"])
  /\ exists t',
       parse_text_to_json
         (Ok ["Law and History" ++ newline; "Day 1 Genesis 1:3 Psalm 1" ++ newline]) []
       = (Ok (JArr [day_record 1 "Law and History" (reading "Genesis" "1" "3")
                      (JStr "none") (reading "Psalm" "1" "all")]), t').
Proof.
  apply (header_sets_period [] "" "Law and History"
           ["Day 1 Genesis 1:3 Psalm 1"; "Day 2 Genesis 2 Psalm 2"]
           "Law" ["and"; "History"] []).
  - reflexivity.
  - discriminate.
  - repeat constructor.
Defined.

(** The two day lines after the header both carry its period. *)
Example header_then_two_day_lines :
  exists t',
    parse_text_to_json
      (Ok ["Law and History"; "Day 1 Genesis 1:3 Psalm 1"; "Day 2 Genesis 2 Psalm 2"]) []
    = (Ok (JArr [day_record 1 "Law and History" (reading "Genesis" "1" "3")
                   (JStr "none") (reading "Psalm" "1" "all");
                 day_record 2 "Law and History" (reading "Genesis" "2" "all")
                   (JStr "none") (reading "Psalm" "2" "all")]), t').
Proof. eexists. reflexivity. Qed.

(** C6. Every record of the returned list has a [second_reading] field, and
    its value is the string "none" or a dict of the three strings book,
    chapters and verses. *)
Theorem second_reading_none_or_reading lines t :
  exists recs t',
    parse_text_to_json (Ok lines) t = (Ok (JArr recs), t')
    /\ Forall (fun r => exists second,
                   subscript r "second_reading" = Ok second
                   /\ (second = JStr "none" \/ is_reading second)) recs.
Proof.
  destruct (parse_text_to_json_records lines t) as [t' H].
  exists (records "" lines), t'. split; [exact H|]. apply records_second_reading.
Qed.

(** C9. [parse_text_to_json] returns for every list of lines, with the
    records of the lines in input order; a day line that has too few tokens
    or whose processing raises contributes no record and leaves the period
    alone, so the result is that of the lines before it followed by that of
    the lines after it. *)
Theorem failing_line_only_dropped pre bad post p0 ps t :
  tokens bad = p0 :: ps ->
  lower p0 = "day" ->
  ((length (p0 :: ps) < 4)%nat \/ exists period e, day_data_of period (p0 :: ps) = Raise e) ->
  (forall lines t0, exists t',
      parse_text_to_json (Ok lines) t0 = (Ok (JArr (records "" lines)), t'))
  /\ (exists t',
        parse_text_to_json (Ok (pre ++ bad :: post)) t
        = (Ok (JArr (records "" pre ++ records (period_after "" pre) post)), t'))%list
  /\ forall period, records period (pre ++ bad :: post) = records period (pre ++ post).
Proof.
  intros Ht Hl Hbad.
  assert (Hh : is_header bad = false).
  { unfold is_header. now rewrite Ht, Hl. }
  assert (Hnone : forall period, line_record period bad = None).
  { intros period. unfold line_record. rewrite Hh, Ht.
    destruct (length (p0 :: ps) <? 4)%nat eqn:E; [reflexivity|].
    destruct Hbad as [Hlen|(p & e & He)].
    - apply Nat.ltb_ge in E. lia.
    - now rewrite (day_data_of_raise_any_period p period _ e He). }
  assert (Hdrop : forall period,
             records period (pre ++ bad :: post) = records period (pre ++ post)).
  { intros period. rewrite !records_app. f_equal. simpl. now rewrite Hh, Hnone. }
  split; [exact parse_text_to_json_records|]. split; [|exact Hdrop].
  destruct (parse_text_to_json_records (pre ++ bad :: post) t) as [t' H].
  exists t'. now rewrite H, Hdrop, records_app.
Qed.

Lemma failing_line_only_dropped_witness :
  (forall lines t0, exists t',
      parse_text_to_json (Ok lines) t0 = (Ok (JArr (records "" lines)), t'))
  /\ (exists t',
        parse_text_to_json
          (Ok (["Law"; "Day 1 Genesis 1"] ++ "Day two Genesis 2" :: ["Day 3 Genesis 3 Psalm 1"])) []
        = (Ok (JArr (records "" ["Law"; "Day 1 Genesis 1"]
                     ++ records (period_after "" ["Law"; "Day 1 Genesis 1"])
                          ["Day 3 Genesis 3 Psalm 1"])), t'))%list
  /\ forall period,
       records period (["Law"; "Day 1 Genesis 1"] ++ "Day two Genesis 2" :: ["Day 3 Genesis 3 Psalm 1"])
       = records period (["Law"; "Day 1 Genesis 1"] ++ ["Day 3 Genesis 3 Psalm 1"]).
Proof.
  apply (failing_line_only_dropped ["Law"; "Day 1 Genesis 1"] "Day two Genesis 2"
           ["Day 3 Genesis 3 Psalm 1"] "Day" ["two"; "Genesis"; "2"] []).
  - reflexivity.
  - reflexivity.
  - right. exists "". eexists. reflexivity.
Defined.

(** ** The announcer *)

Section Firing.

Variable self : BibleBot.

Lemma load_bible_data_ok data t :
  bible_file self = Ok data ->
  load_bible_data self t = (Ok data, t ++ [loaded self])%list.
Proof.
  intros H. unfold load_bible_data, try_except, bind, lift, log, ret. now rewrite H.
Qed.

Lemma load_bible_data_raise e t :
  bible_file self = Raise e ->
  exists lg, load_bible_data self t = (Raise e, t ++ lg)%list
             /\ Forall (fun ev => exists msg, ev = Log ERROR msg) lg.
Proof.
  intros H. unfold load_bible_data, try_except, bind, lift, log, ret, raise. rewrite H.
  destruct (exn_cls e);
    try (exists []; rewrite app_nil_r; split; [reflexivity|constructor]);
    eexists [_]; (split; [reflexivity|]); repeat constructor; eauto.
Qed.

(** The scan passes over the entries of other days. *)
Lemma scan_other_days pre rest t :
  Forall (other_day self) pre ->
  scan self (now self) (tm_yday (now self)) (pre ++ rest) t
  = scan self (now self) (tm_yday (now self)) rest t.
Proof.
  induction 1 as [|entry pre (v & Hv & Hne) _ IH]; [reflexivity|].
  cbn [app scan]. unfold bind at 1, lift. now rewrite Hv, Hne.
Qed.

(** The scan stops at an entry of this day, whatever follows it. *)
Lemma scan_this_day entry rest t :
  this_day self entry ->
  scan self (now self) (tm_yday (now self)) (entry :: rest) t =
  match format_daily_message entry (now self) with
  | Raise e => (Raise e, t)
  | Ok message =>
      match get_channel self with
      | None =>
          (Ok tt,
           t ++ [Log ERROR ("Could not find channel with ID "
                            ++ str_of_int (channel_id self))])
      | Some ch =>
          match send_result ch message with
          | Some e => (Raise e, t)
          | None =>
              (Ok tt,
               t ++ [Sent (channel_id self) message;
                     Log INFO ("Successfully sent Bible reading for day "
                               ++ str_of_int (tm_yday (now self)))])
          end
      end
  end%list.
Proof.
  intros (v & Hv & He). cbn [scan]. unfold bind, lift, log, channel_send.
  rewrite Hv, He.
  destruct (format_daily_message entry (now self)) as [m|e]; [|reflexivity].
  destruct (get_channel self) as [ch|]; [|reflexivity].
  destruct (send_result ch m); [reflexivity|].
  now rewrite <- app_assoc.
Qed.

Lemma send_bible_message_first_match pre entry post t :
  bible_file self = Ok (JArr (pre ++ entry :: post)) ->
  Forall (other_day self) pre ->
  this_day self entry ->
  send_bible_message self t = announce self entry (t ++ [loaded self])%list.
Proof.
  intros Hf Hpre Hentry.
  unfold send_bible_message, try_except, bind at 1.
  rewrite (load_bible_data_ok _ t Hf). unfold bind, lift. cbn [iter].
  rewrite (scan_other_days pre (entry :: post) _ Hpre), (scan_this_day _ post _ Hentry).
  unfold announce, log, error_sending.
  destruct (format_daily_message entry (now self)) as [m|e]; [|reflexivity].
  destruct (get_channel self) as [ch|]; [|reflexivity].
  destruct (send_result ch m); reflexivity.
Qed.

Lemma scan_no_match entries t :
  Forall (other_day self) entries ->
  scan self (now self) (tm_yday (now self)) entries t
  = (Ok tt, t ++ [Log WARNING ("No reading found for day " ++ str_of_int (tm_yday (now self)))])%list.
Proof.
  intros H. rewrite <- (app_nil_r entries), (scan_other_days _ [] _ H). reflexivity.
Qed.

(** The scan only ever adds to the trace. *)
Lemma scan_extends entries t :
  exists x lg, scan self (now self) (tm_yday (now self)) entries t = (x, t ++ lg)%list.
Proof.
  induction entries as [|entry rest IH]; cbn [scan].
  - unfold log. eauto.
  - unfold bind, lift, log, channel_send.
    destruct (subscript entry "day") as [v|e]; [|exists (Raise e), []; now rewrite app_nil_r].
    destruct (eq_int v (tm_yday (now self))); [|exact IH].
    destruct (format_daily_message entry (now self)) as [m|e];
      [|exists (Raise e), []; now rewrite app_nil_r].
    destruct (get_channel self) as [ch|]; [|eauto].
    destruct (send_result ch m) as [e|];
      [exists (Raise e), []; now rewrite app_nil_r|].
    rewrite <- app_assoc. eauto.
Qed.

(** The firing returns, whatever the file, the entries and the channel. *)
Lemma send_bible_message_returns t :
  exists lg, send_bible_message self t = (Ok tt, t ++ lg)%list.
Proof.
  unfold send_bible_message, try_except, bind at 1.
  destruct (bible_file self) as [data|e] eqn:Hf.
  - rewrite (load_bible_data_ok _ t Hf). unfold bind, lift.
    destruct (iter data) as [entries|e].
    + destruct (scan_extends entries (t ++ [loaded self])%list) as (x & lg & H).
      rewrite H.
      rewrite <- app_assoc. destruct x as [[]|e]; unfold log;
        rewrite <- ?app_assoc; eauto.
    + unfold log. rewrite <- app_assoc. eauto.
  - destruct (load_bible_data_raise e t Hf) as (lg & -> & _).
    unfold log. rewrite <- app_assoc. eauto.
Qed.

End Firing.

(** C7. When the entries before [entry] are of other days and [entry] is of
    this day, the firing does with [entry] what [announce] says and nothing
    else: the entries after it, matching or not, play no part, and a
    message delivered at this firing is the formatted [entry]. *)
Theorem first_matching_record_used self pre entry post t :
  bible_file self = Ok (JArr (pre ++ entry :: post)) ->
  Forall (other_day self) pre ->
  this_day self entry ->
  send_bible_message self t = announce self entry (t ++ [loaded self])%list
  /\ forall id message,
       In (Sent id message) (snd (send_bible_message self t)) ->
       In (Sent id message) t
       \/ format_daily_message entry (now self) = Ok message.
Proof.
  intros Hf Hpre Hentry.
  pose proof (send_bible_message_first_match self pre entry post t Hf Hpre Hentry) as H.
  split; [exact H|]. rewrite H. clear H. unfold announce.
  intros id message.
  destruct (format_daily_message entry (now self)) as [m|e];
    [destruct (get_channel self) as [ch|]; [destruct (send_result ch m)|]|];
    cbn [snd]; rewrite !in_app_iff; cbn [In]; unfold loaded, error_sending;
    intuition (try discriminate).
  right. congruence.
Qed.

Lemma first_matching_record_used_witness :
  send_bible_message duplicate_days []
  = announce duplicate_days (sample_day 5 "Exodus") ([] ++ [loaded duplicate_days])%list
  /\ forall id message,
       In (Sent id message) (snd (send_bible_message duplicate_days [])) ->
       In (Sent id message) []
       \/ format_daily_message (sample_day 5 "Exodus") (now duplicate_days) = Ok message.
Proof.
  apply (first_matching_record_used duplicate_days [sample_day 4 "Genesis"]
           (sample_day 5 "Exodus") [sample_day 5 "Leviticus"] []).
  - reflexivity.
  - repeat constructor. eexists. split; reflexivity.
  - eexists. split; reflexivity.
Defined.

(** C8. When every entry is of another day the firing delivers nothing and
    logs the warning.  Every firing returns; and an exception raised while
    loading, while formatting the entry of this day, or while sending its
    message ends in the handler: the firing logs "Error sending Bible
    message" with the text of the exception as the last line and delivers
    nothing. *)
Theorem no_match_no_message self entries t :
  bible_file self = Ok (JArr entries) ->
  Forall (other_day self) entries ->
  send_bible_message self t
  = (Ok tt,
     t ++ [loaded self;
           Log WARNING ("No reading found for day " ++ str_of_int (tm_yday (now self)))])%list
  /\ (forall bot t0, exists lg, send_bible_message bot t0 = (Ok tt, t0 ++ lg)%list)
  /\ (forall bot t0 e,
        bible_file bot = Raise e ->
        send_bible_message bot t0
        = (Ok tt,
           t0 ++ match exn_cls e with
                 | FileNotFoundError =>
                     [Log ERROR ("Bible readings file not found at " ++ json_path bot)]
                 | JSONDecodeError =>
                     [Log ERROR ("Invalid JSON format in " ++ json_path bot)]
                 | _ => []
                 end ++ [error_sending e])%list)
  /\ (forall bot pre entry post e t0,
        bible_file bot = Ok (JArr (pre ++ entry :: post)) ->
        Forall (other_day bot) pre ->
        this_day bot entry ->
        format_daily_message entry (now bot) = Raise e ->
        send_bible_message bot t0 = (Ok tt, t0 ++ [loaded bot; error_sending e])%list)
  /\ (forall bot pre entry post message ch e t0,
        bible_file bot = Ok (JArr (pre ++ entry :: post)) ->
        Forall (other_day bot) pre ->
        this_day bot entry ->
        format_daily_message entry (now bot) = Ok message ->
        get_channel bot = Some ch ->
        send_result ch message = Some e ->
        send_bible_message bot t0 = (Ok tt, t0 ++ [loaded bot; error_sending e])%list).
Proof.
  intros Hf Hno. split; [|split; [|split; [|split]]].
  - unfold send_bible_message, try_except, bind at 1.
    rewrite (load_bible_data_ok _ _ _ Hf). unfold bind, lift. cbn [iter].
    rewrite (scan_no_match self entries _ Hno). now rewrite <- app_assoc.
  - exact send_bible_message_returns.
  - intros bot t0 e He.
    unfold send_bible_message, load_bible_data, try_except, bind, lift, log, raise, ret.
    rewrite He. unfold error_sending.
    destruct (exn_cls e); rewrite <- ?app_assoc; reflexivity.
  - intros bot pre entry post e t0 Hb Hpre Hentry Hfmt.
    rewrite (send_bible_message_first_match bot pre entry post t0 Hb Hpre Hentry).
    unfold announce. rewrite Hfmt. now rewrite <- app_assoc.
  - intros bot pre entry post message ch e t0 Hb Hpre Hentry Hfmt Hch Hsend.
    rewrite (send_bible_message_first_match bot pre entry post t0 Hb Hpre Hentry).
    unfold announce. rewrite Hfmt, Hch, Hsend. now rewrite <- app_assoc.
Qed.

Lemma no_match_no_message_witness :
  send_bible_message no_day_five []
  = (Ok tt,
     [] ++ [loaded no_day_five;
            Log WARNING ("No reading found for day "
                         ++ str_of_int (tm_yday (now no_day_five)))])%list
  /\ (forall bot t0, exists lg, send_bible_message bot t0 = (Ok tt, t0 ++ lg)%list)
  /\ (forall bot t0 e,
        bible_file bot = Raise e ->
        send_bible_message bot t0
        = (Ok tt,
           t0 ++ match exn_cls e with
                 | FileNotFoundError =>
                     [Log ERROR ("Bible readings file not found at " ++ json_path bot)]
                 | JSONDecodeError =>
                     [Log ERROR ("Invalid JSON format in " ++ json_path bot)]
                 | _ => []
                 end ++ [error_sending e])%list)
  /\ (forall bot pre entry post e t0,
        bible_file bot = Ok (JArr (pre ++ entry :: post)) ->
        Forall (other_day bot) pre ->
        this_day bot entry ->
        format_daily_message entry (now bot) = Raise e ->
        send_bible_message bot t0 = (Ok tt, t0 ++ [loaded bot; error_sending e])%list)
  /\ (forall bot pre entry post message ch e t0,
        bible_file bot = Ok (JArr (pre ++ entry :: post)) ->
        Forall (other_day bot) pre ->
        this_day bot entry ->
        format_daily_message entry (now bot) = Ok message ->
        get_channel bot = Some ch ->
        send_result ch message = Some e ->
        send_bible_message bot t0 = (Ok tt, t0 ++ [loaded bot; error_sending e])%list).
Proof.
  apply (no_match_no_message no_day_five [sample_day 4 "Genesis"; sample_day 6 "Exodus"] []).
  - reflexivity.
  - repeat constructor; eexists; split; reflexivity.
Defined.

(** A channel that refuses the message, and a file that is not there: the
    firing logs the exception and delivers nothing. *)
Example send_refused_logged :
  send_bible_message
    {| json_path := "reading_plan.json"; channel_id := 42;
       bible_file := Ok (JArr [sample_day 5 "Exodus"]);
       now := {| year := 2024; month_of := January; day_of := 5 |};
       get_channel :=
         Some {| send_result := fun _ => Some (Exn (OtherException "Forbidden") "403") |} |}
    []
  = (Ok tt,
     [Log INFO "Successfully loaded Bible data from reading_plan.json";
      Log ERROR "Error sending Bible message: 403"]).
Proof. reflexivity. Qed.

Example load_failure_logged :
  send_bible_message
    {| json_path := "reading_plan.json"; channel_id := 42;
       bible_file := Raise (Exn FileNotFoundError "[Errno 2] No such file");
       now := {| year := 2024; month_of := January; day_of := 5 |};
       get_channel := Some {| send_result := fun _ => None |} |}
    []
  = (Ok tt,
     [Log ERROR "Bible readings file not found at reading_plan.json";
      Log ERROR "Error sending Bible message: [Errno 2] No such file"]).
Proof. reflexivity. Qed.

Section Formatting.

Variables (n : Z) (period : string) (date : datetime).

Lemma format_null_poem first second :
  is_reading first ->
  format_daily_message (day_record n period first second JNull) date
  = Raise not_subscriptable.
Proof.
  intros (b & c & v & ->). unfold format_daily_message. cbn.
  destruct (eq_str second "none"); reflexivity.
Qed.

Lemma format_dict_second_reading first second poem :
  is_reading first -> is_reading second -> is_reading poem ->
  format_daily_message (day_record n period first second poem) date
  = Raise dict_in_join.
Proof.
  intros (b & c & v & ->) (b' & c' & v' & ->) (b'' & c'' & v'' & ->).
  reflexivity.
Qed.

(** Without a second reading and with a poem the message is the text of
    the specification. *)
Lemma format_no_second_reading b c v b' c' v' :
  format_daily_message
    (day_record n period (reading b c v) (JStr "none") (reading b' c' v')) date
  = Ok (("# Bible in a Year Day " ++ str_of_int n ++ " (" ++ strftime_B_d date ++ ") "
         ++ period) ++ newline
        ++ "" ++ newline
        ++ "## Readings" ++ newline
        ++ "" ++ newline
        ++ "### First Reading" ++ newline
        ++ (b ++ " Chapter(s) " ++ c) ++ newline
        ++ "" ++ newline
        ++ "### Poem" ++ newline
        ++ (b' ++ " " ++ c')).
Proof. reflexivity. Qed.

End Formatting.

(** C2. An entry whose [second_reading] is a dict is not formatted: the dict
    is put among the lines of the message and the final join raises
    TypeError on it (item 8 when the other fields are well formed), so no
    message with a Second Reading section and a Poem section is returned. *)
Theorem format_daily_message_second_reading_raises entry date kvs :
  subscript entry "second_reading" = Ok (JObj kvs) ->
  raises (format_daily_message entry date)
  /\ forall n period first poem,
       is_reading first -> is_reading poem ->
       entry = day_record n period first (JObj kvs) poem ->
       format_daily_message entry date = Raise dict_in_join.
Proof.
  intros H. split.
  - unfold format_daily_message.
    repeat match goal with
      | |- raises (obind (subscript entry "second_reading") _) =>
          rewrite H; cbn [obind eq_str negb]
      | |- raises (obind ?x _) =>
          destruct x; cbn [obind]; [|eexists; reflexivity]
      end.
    cbn. eexists. reflexivity.
  - intros n period first poem (b & c & v & ->) (b' & c' & v' & ->) ->. reflexivity.
Qed.

Lemma format_daily_message_second_reading_raises_witness :
  raises (format_daily_message
            (day_record 5 "Law" (reading "Exodus" "2" "all") (reading "Matthew" "3" "all")
               (reading "Proverbs" "4" "all"))
            {| year := 2024; month_of := January; day_of := 5 |})
  /\ forall n period first poem,
       is_reading first -> is_reading poem ->
       day_record 5 "Law" (reading "Exodus" "2" "all") (reading "Matthew" "3" "all")
         (reading "Proverbs" "4" "all")
       = day_record n period first
           (JObj [("book", JStr "Matthew"); ("chapters", JStr "3"); ("verses", JStr "all")])
           poem ->
       format_daily_message
         (day_record 5 "Law" (reading "Exodus" "2" "all") (reading "Matthew" "3" "all")
            (reading "Proverbs" "4" "all"))
         {| year := 2024; month_of := January; day_of := 5 |}
       = Raise dict_in_join.
Proof.
  apply (format_daily_message_second_reading_raises
           (day_record 5 "Law" (reading "Exodus" "2" "all") (reading "Matthew" "3" "all")
              (reading "Proverbs" "4" "all"))
           {| year := 2024; month_of := January; day_of := 5 |}
           [("book", JStr "Matthew"); ("chapters", JStr "3"); ("verses", JStr "all")]).
  reflexivity.
Defined.

(** C10. A record whose [poem] is null, which is what a day line of four
    tokens gives, cannot be formatted: the Poem section subscripts None
    and raises TypeError.  When that record is the first of this day the
    firing logs the error and delivers nothing. *)
Theorem null_poem_no_message self pre n period first second post t :
  is_reading first ->
  bible_file self = Ok (JArr (pre ++ day_record n period first second JNull :: post)) ->
  Forall (other_day self) pre ->
  n = tm_yday (now self) ->
  format_daily_message (day_record n period first second JNull) (now self)
  = Raise not_subscriptable
  /\ send_bible_message self t
     = (Ok tt, t ++ [loaded self; error_sending not_subscriptable])%list
  /\ forall period' p0 p1 p2 p3 d first',
       int p1 = Ok d ->
       create_reading p2 p3 = Ok first' ->
       is_reading first'
       /\ day_data_of period' [p0; p1; p2; p3]
          = Ok (d, day_record d period' first' (JStr "none") JNull).
Proof.
  intros Hfirst Hf Hpre ->.
  pose proof (format_null_poem (tm_yday (now self)) period (now self) first second Hfirst)
    as Hfmt.
  split; [exact Hfmt|]. split.
  - rewrite (send_bible_message_first_match self pre _ post t Hf Hpre).
    + unfold announce. rewrite Hfmt. now rewrite <- app_assoc.
    + exists (JInt (tm_yday (now self))). split; [reflexivity|]. apply Z.eqb_refl.
  - intros period' p0 p1 p2 p3 d first' Hd Hr. split.
    + destruct (create_reading_shape _ _ _ Hr) as (c & v & ->). now exists p2, c, v.
    + now apply day_data_first_only.
Qed.

Lemma null_poem_no_message_witness :
  format_daily_message (day_record 5 "Law" (reading "Exodus" "2" "all") (JStr "none") JNull)
    (now four_token_day)
  = Raise not_subscriptable
  /\ send_bible_message four_token_day []
     = (Ok tt, [] ++ [loaded four_token_day; error_sending not_subscriptable])%list
  /\ forall period' p0 p1 p2 p3 d first',
       int p1 = Ok d ->
       create_reading p2 p3 = Ok first' ->
       is_reading first'
       /\ day_data_of period' [p0; p1; p2; p3]
          = Ok (d, day_record d period' first' (JStr "none") JNull).
Proof.
  apply (null_poem_no_message four_token_day [sample_day 4 "Genesis"] 5 "Law"
           (reading "Exodus" "2" "all") (JStr "none") [sample_day 5 "Leviticus"] []).
  - do 3 eexists. reflexivity.
  - reflexivity.
  - repeat constructor. eexists. split; reflexivity.
  - reflexivity.
Defined.

Example four_token_line_record :
  records "Law" ["Day 5 Exodus 2"]
  = [day_record 5 "Law" (reading "Exodus" "2" "all") (JStr "none") JNull].
Proof. reflexivity. Qed.

(** The day of the year on the last day of a leap and of a common year. *)
Example tm_yday_leap :
  tm_yday {| year := 2024; month_of := December; day_of := 31 |} = 366.
Proof. reflexivity. Qed.

Example tm_yday_common :
  tm_yday {| year := 2023; month_of := December; day_of := 31 |} = 365.
Proof. reflexivity. Qed.

(** ** Further properties of the parser *)

Section SplitJoin.

Lemma split_on_length sep s : length (split_on sep s) = S (count_char sep s).
Proof.
  induction s as [|c s IH]; simpl; [reflexivity|].
  destruct (Ascii.eqb c sep); simpl; [now rewrite IH|].
  destruct (split_on sep s); simpl in *; [discriminate|exact IH].
Qed.

Lemma contains_count sep s : contains sep s = negb (count_char sep s =? 0)%nat.
Proof.
  induction s as [|c s IH]; simpl; [reflexivity|].
  destruct (Ascii.eqb c sep); simpl; [reflexivity|exact IH].
Qed.

Lemma count_char_app sep (a b : string) :
  count_char sep (a ++ b) = (count_char sep a + count_char sep b)%nat.
Proof.
  induction a as [|c a IH]; simpl; [reflexivity|]. rewrite IH. lia.
Qed.

(** Joining the parts of a split gives the text back. *)
Lemma join_split_on sep s : join (String sep "") (split_on sep s) = s.
Proof.
  induction s as [|c s IH]; [reflexivity|].
  cbn [split_on].
  destruct (split_on sep s) as [|h t] eqn:E; [now apply split_on_not_nil in E|].
  destruct (Ascii.eqb_spec c sep) as [->|_].
  - change (join (String sep "") ("" :: h :: t))
      with (String sep (join (String sep "") (h :: t))).
    now rewrite IH.
  - destruct t as [|h' t'].
    + cbn [join] in IH |- *. now rewrite IH.
    + change (join (String sep "") (String c h :: h' :: t'))
        with (String c (join (String sep "") (h :: h' :: t'))).
      now rewrite IH.
Qed.

End SplitJoin.

(** X1. What [parse_scripture_reference] returns can be put back together:
    either the token has no colon, is the chapters, and the verses are
    "all"; or the token is the chapters, a colon and the verses, neither of
    which holds a colon. *)
Theorem parse_scripture_reference_inverse reference chapters verses :
  parse_scripture_reference reference = Ok (chapters, verses) ->
  (contains ":" reference = false /\ chapters = reference /\ verses = "all")
  \/ (reference = chapters ++ ":" ++ verses
      /\ contains ":" chapters = false /\ contains ":" verses = false).
Proof.
  unfold parse_scripture_reference.
  destruct (contains ":" reference) eqn:Hc.
  - pose proof (join_split_on ":" reference) as Hj.
    pose proof (split_on_length ":" reference) as Hl.
    destruct (split_on ":" reference) as [|a [|b [|c l]]]; try discriminate.
    intros H. injection H as -> ->. right.
    cbn [join] in Hj. split; [now rewrite Hj|].
    rewrite <- Hj, count_char_app in Hl. simpl in Hl.
    rewrite !contains_count.
    assert (count_char ":" chapters = 0%nat) as -> by lia.
    assert (count_char ":" verses = 0%nat) as -> by lia.
    now split.
  - intros H. injection H as <- <-. now left.
Qed.

Lemma parse_scripture_reference_inverse_witness :
  (contains ":" "1:3" = false /\ "1" = "1:3" /\ "3" = "all")
  \/ ("1:3" = "1" ++ ":" ++ "3"
      /\ contains ":" "1" = false /\ contains ":" "3" = false).
Proof.
  apply (parse_scripture_reference_inverse "1:3" "1" "3"). reflexivity.
Defined.

Lemma parse_scripture_reference_returns reference :
  (exists r, parse_scripture_reference reference = Ok r)
  <-> (count_char ":" reference <= 1)%nat.
Proof.
  unfold parse_scripture_reference. rewrite contains_count.
  pose proof (split_on_length ":" reference) as Hl.
  destruct (count_char ":" reference) as [|[|n]] eqn:Hn; simpl.
  - split; [lia|eauto].
  - destruct (split_on ":" reference) as [|a [|b [|c l]]]; try discriminate.
    split; [lia|eauto].
  - destruct (split_on ":" reference) as [|a [|b [|c l]]]; try discriminate.
    split; [intros [r H]; discriminate|lia].
Qed.

(** X2. [parse_scripture_reference] returns exactly for the tokens that
    hold at most one colon; on the others it raises. *)
Theorem parse_scripture_reference_returns_iff reference :
  ((exists r, parse_scripture_reference reference = Ok r)
   <-> (count_char ":" reference <= 1)%nat)
  /\ ((exists e, parse_scripture_reference reference = Raise e)
      <-> (2 <= count_char ":" reference)%nat).
Proof.
  pose proof (parse_scripture_reference_returns reference) as H.
  split; [exact H|].
  destruct (parse_scripture_reference reference) as [r|e] eqn:E.
  - assert (Hc : (count_char ":" reference <= 1)%nat) by (apply H; eauto).
    split; [intros [e He]; discriminate|lia].
  - split; [intros _|eauto].
    destruct (Nat.le_gt_cases (count_char ":" reference) 1) as [Hc|Hc]; [|lia].
    apply H in Hc as [r Hr]. discriminate.
Qed.

(** X3. Writing the verses "all" out changes nothing: for a chapters text
    without colon, the token with ":all" after it gives the reading of the
    token alone. *)
Theorem create_reading_explicit_all book chapters :
  contains ":" chapters = false ->
  create_reading book (chapters ++ ":all") = create_reading book chapters
  /\ create_reading book chapters = Ok (reading book chapters "all").
Proof.
  intros H. unfold create_reading.
  change (chapters ++ ":all") with (chapters ++ ":" ++ "all").
  rewrite (parse_scripture_reference_colon chapters "all" H eq_refl).
  rewrite (parse_scripture_reference_plain chapters H). split; reflexivity.
Qed.

Lemma create_reading_explicit_all_witness :
  create_reading "Psalm" ("23" ++ ":all") = create_reading "Psalm" "23"
  /\ create_reading "Psalm" "23" = Ok (reading "Psalm" "23" "all").
Proof.
  apply (create_reading_explicit_all "Psalm" "23"). reflexivity.
Defined.

Section Blank.

Lemma lstrip_all_space s : all_space s = true -> lstrip s = "".
Proof.
  induction s as [|c s IH]; simpl; [reflexivity|].
  intros H. apply andb_prop in H as [Hc Hs]. rewrite Hc. now apply IH.
Qed.

Lemma lstrip_empty s : lstrip s = "" -> all_space s = true.
Proof.
  induction s as [|c s IH]; simpl; [reflexivity|].
  destruct (isspace c); [exact IH|discriminate].
Qed.

Lemma rstrip_empty s : rstrip s = "" -> all_space s = true.
Proof.
  induction s as [|c s IH]; simpl; [reflexivity|].
  destruct (rstrip s); [|discriminate].
  destruct (isspace c); [|discriminate]. intros _. now apply IH.
Qed.

(** A line strips to nothing exactly when it is all white space. *)
Lemma strip_empty_iff s : strip s = "" <-> all_space s = true.
Proof.
  unfold strip. split.
  - intros H. apply lstrip_empty.
    apply rstrip_empty in H. destruct (lstrip s) as [|c r] eqn:E; [reflexivity|].
    exfalso. revert E H. clear. induction s as [|a s IH]; simpl; [discriminate|].
    destruct (isspace a) eqn:Ha; [exact IH|].
    intros E. injection E as <- <-. simpl. now rewrite Ha.
  - intros H. now rewrite (lstrip_all_space _ H).
Qed.

Lemma split_from_nil s : forall tok, split_from tok s = [] -> tok = "" /\ all_space s = true.
Proof.
  induction s as [|c s IH]; intros tok; simpl.
  - destruct tok; [auto|discriminate].
  - destruct (isspace c).
    + destruct tok; [|discriminate]. intros H. now destruct (IH _ H).
    + intros H. destruct (IH _ H) as [E _]. destruct tok; discriminate.
Qed.

(** The test [if not parts] adds nothing to the test [if not line]. *)
Lemma tokens_nil_iff line : tokens line = [] <-> all_space line = true.
Proof.
  rewrite tokens_split. split.
  - intros H. apply split_from_nil in H as [_ H].
    apply strip_empty_iff. rewrite <- strip_idem. now apply strip_empty_iff.
  - intros H. apply strip_empty_iff in H. now rewrite H.
Qed.

Lemma app_one_neq {A} (t : list A) x : (t ++ [x])%list <> t.
Proof.
  intros H. apply (f_equal (@length A)) in H. rewrite length_app in H. simpl in H. lia.
Qed.

(** One line adds one log line, or none when it is blank. *)
Lemma loop_body_log st line t :
  exists x lg,
    loop_body st line t = (x, t ++ lg)%list
    /\ length lg = (if all_space line then 0 else 1)%nat.
Proof.
  destruct st as [result period]. rewrite loop_body_run.
  pose proof (tokens_nil_iff line) as Hb.
  destruct (tokens line) as [|p0 ps] eqn:E.
  - rewrite (proj1 Hb eq_refl). exists (Ok (result, period)), []. now rewrite app_nil_r.
  - destruct (all_space line); [discriminate (proj2 Hb eq_refl)|].
    destruct (negb (String.eqb (lower p0) "day")); [eauto|].
    rewrite day_line_run.
    destruct (length (p0 :: ps) <? 4)%nat; [eauto|].
    destruct (day_data_of period (p0 :: ps)) as [[n d]|e]; eauto.
Qed.

End Blank.

(** X4. The loop passes over a line without a trace, leaving the records,
    the period and the log as they are, exactly when the line is nothing
    but white space. *)
Theorem blank_line_skipped_iff st line t :
  loop_body st line t = (Ok st, t) <-> all_space line = true.
Proof.
  split.
  - intros H. destruct (loop_body_log st line t) as (x & lg & E & Hl).
    destruct (all_space line); [reflexivity|].
    rewrite E in H. injection H as _ H.
    destruct lg as [|ev [|ev' lg]]; try discriminate.
    now apply app_one_neq in H.
  - intros H. destruct st as [result period].
    rewrite loop_body_run, (proj2 (tokens_nil_iff line) H). reflexivity.
Qed.

(** X5. White space around a line does not matter: the loop treats a line
    and its trimmed text alike. *)
Theorem loop_body_strip st line t :
  loop_body st (strip line) t = loop_body st line t.
Proof.
  destruct st as [result period]. rewrite !loop_body_run.
  unfold tokens. now rewrite !strip_idem.
Qed.

(** X6. A day line of fewer than four tokens is skipped with a warning, not
    an error, whatever its day token is: the count is tested before the
    day number is read. *)
Theorem short_day_line_warned result period line p0 ps t :
  tokens line = p0 :: ps ->
  lower p0 = "day" ->
  (length (p0 :: ps) < 4)%nat ->
  loop_body (result, period) line t
  = (Ok (result, period),
     t ++ [Log WARNING ("Skipping malformed line: " ++ strip line)])%list
  /\ line_record period line = None.
Proof.
  intros Ht Hl Hn. apply Nat.ltb_lt in Hn. split.
  - rewrite loop_body_run, Ht, Hl. simpl (negb _). cbv iota.
    now rewrite day_line_run, Hn.
  - unfold line_record, is_header. rewrite Ht, Hl. simpl (negb _). cbv iota.
    now rewrite Hn.
Qed.

Lemma short_day_line_warned_witness :
  loop_body ([], "Law") "Day one Genesis" []
  = (Ok ([], "Law"),
     [] ++ [Log WARNING ("Skipping malformed line: " ++ strip "Day one Genesis")])%list
  /\ line_record "Law" "Day one Genesis" = None.
Proof.
  apply (short_day_line_warned [] "Law" "Day one Genesis" "Day" ["one"; "Genesis"] []).
  - reflexivity.
  - reflexivity.
  - simpl. lia.
Defined.

(** X7. When the second pair is a poem, every token after it is ignored: a
    reading written after a Psalm or Proverbs pair is lost without a log
    line, and a book left alone there does no harm. *)
Theorem tokens_after_poem_ignored period p0 p1 p2 p3 p4 p5 rest :
  mem (lower p4) poem_books = true ->
  day_data_of period (p0 :: p1 :: p2 :: p3 :: p4 :: p5 :: rest)
  = day_data_of period [p0; p1; p2; p3; p4; p5].
Proof.
  intros Hb. unfold day_data_of. step.
  destruct (int p1); step; [|reflexivity].
  destruct (create_reading p2 p3); step; [|reflexivity].
  now rewrite Hb.
Qed.

Lemma tokens_after_poem_ignored_witness :
  day_data_of "Law" ("Day" :: "1" :: "Genesis" :: "1" :: "Psalm" :: "1" :: ["Matthew"; "1"])
  = day_data_of "Law" ["Day"; "1"; "Genesis"; "1"; "Psalm"; "1"].
Proof.
  apply (tokens_after_poem_ignored "Law" "Day" "1" "Genesis" "1" "Psalm" "1" ["Matthew"; "1"]).
  reflexivity.
Defined.

(** X8. Nothing after the eighth token is read: a day line longer than
    three pairs gives what its first eight tokens give. *)
Theorem tokens_after_eighth_ignored period p0 p1 p2 p3 p4 p5 p6 p7 rest :
  day_data_of period (p0 :: p1 :: p2 :: p3 :: p4 :: p5 :: p6 :: p7 :: rest)
  = day_data_of period [p0; p1; p2; p3; p4; p5; p6; p7].
Proof.
  unfold day_data_of. step.
  destruct (int p1); step; [|reflexivity].
  destruct (create_reading p2 p3); step; reflexivity.
Qed.

Section Yield.

Lemma create_reading_returns book reference :
  (count_char ":" reference <= 1)%nat ->
  exists v, create_reading book reference = Ok v.
Proof.
  intros H. apply parse_scripture_reference_returns in H as [[c v] H].
  unfold create_reading. rewrite H. simpl. eauto.
Qed.

Lemma day_data_of_well_shaped period p0 p1 p2 p3 rest n r :
  day_data_of period (p0 :: p1 :: p2 :: p3 :: rest) = Ok (n, r) ->
  well_shaped r.
Proof.
  unfold day_data_of. step. intros H. through;
    repeat match goal with
      | H : create_reading _ _ = Ok _ |- _ =>
          destruct (create_reading_shape _ _ _ H) as (? & ? & ->); clear H
      end;
    cbn [truthy]; do 5 eexists; (split; [reflexivity|]);
    (split; [do 3 eexists; reflexivity|]);
    split; solve [now left | right; do 3 eexists; reflexivity].
Qed.

Lemma line_record_well_shaped period line r :
  line_record period line = Some r -> well_shaped r.
Proof.
  unfold line_record. destruct (is_header line); [discriminate|].
  destruct (tokens line) as [|p0 [|p1 [|p2 [|p3 rest]]]]; try discriminate.
  cbn [length Nat.ltb Nat.leb].
  destruct (day_data_of period (p0 :: p1 :: p2 :: p3 :: rest)) as [[n d]|e] eqn:E;
    [|discriminate].
  intros H. injection H as <-. exact (day_data_of_well_shaped _ _ _ _ _ _ _ _ E).
Qed.

Lemma records_all_well_shaped lines : forall period,
  Forall well_shaped (records period lines).
Proof.
  induction lines as [|line rest IH]; intros period; simpl; [constructor|].
  destruct (is_header line); [apply IH|].
  destruct (line_record period line) as [r|] eqn:E; [|apply IH].
  constructor; [exact (line_record_well_shaped _ _ _ E)|apply IH].
Qed.

End Yield.

(** X9. For a day line with a numeric day token and no token of more than
    one colon, the line yields a record exactly when the tokens after the
    first reading are not a single one, and are not three unless the first
    of them is a poem book. *)
Theorem day_line_yields_record_iff period p0 p1 p2 p3 rest d :
  int p1 = Ok d ->
  Forall (fun p => (count_char ":" p <= 1)%nat) (p3 :: rest) ->
  (exists r, day_data_of period (p0 :: p1 :: p2 :: p3 :: rest) = Ok (d, r))
  <-> (length rest <> 1%nat
       /\ (length rest = 3%nat ->
           exists p4, hd_error rest = Some p4 /\ mem (lower p4) poem_books = true)).
Proof.
  intros Hd Hc. inversion Hc as [|? ? H3 Hrest]; subst.
  destruct (create_reading_returns p2 p3 H3) as [fr Hf].
  destruct rest as [|p4 [|p5 [|p6 [|p7 rest]]]].
  - rewrite (day_data_first_only period p0 p1 p2 p3 d fr Hd Hf).
    split; [intros _; split; [discriminate|discriminate]|eauto].
  - rewrite (day_data_five_tokens period p0 p1 p2 p3 d fr Hd Hf).
    split; [intros [r H]; discriminate|intros [H _]; now elim H].
  - inversion Hrest as [|? ? _ H5]; subst. inversion H5 as [|? ? H5' _]; subst.
    destruct (create_reading_returns p4 p5 H5') as [sr Hs].
    split; [intros _; split; discriminate|intros _].
    destruct (mem (lower p4) poem_books) eqn:Hb.
    + rewrite (day_data_poem period p0 p1 p2 p3 d fr Hd Hf p4 p5 [] sr Hb Hs). eauto.
    + rewrite (day_data_second period p0 p1 p2 p3 d fr Hd Hf p4 p5 sr Hb Hs). eauto.
  - inversion Hrest as [|? ? _ H5]; subst. inversion H5 as [|? ? H5' _]; subst.
    destruct (create_reading_returns p4 p5 H5') as [sr Hs].
    destruct (mem (lower p4) poem_books) eqn:Hb.
    + rewrite (day_data_poem period p0 p1 p2 p3 d fr Hd Hf p4 p5 [p6] sr Hb Hs).
      split; [intros _; split; [discriminate|intros _; exists p4; now split]|eauto].
    + rewrite (day_data_seven_tokens period p0 p1 p2 p3 d fr Hd Hf p4 p5 p6 sr Hb Hs).
      split; [intros [r H]; discriminate|].
      intros [_ H]. destruct (H eq_refl) as (q & Hq & Hm).
      injection Hq as <-. congruence.
  - inversion Hrest as [|? ? _ H5]; subst. inversion H5 as [|? ? H5' H6]; subst.
    inversion H6 as [|? ? _ H7]; subst. inversion H7 as [|? ? H7' _]; subst.
    destruct (create_reading_returns p4 p5 H5') as [sr Hs].
    destruct (create_reading_returns p6 p7 H7') as [pm Hp].
    split; [intros _; split; [discriminate|discriminate]|intros _].
    destruct (mem (lower p4) poem_books) eqn:Hb.
    + rewrite (day_data_poem period p0 p1 p2 p3 d fr Hd Hf p4 p5 _ sr Hb Hs). eauto.
    + rewrite (day_data_second_poem period p0 p1 p2 p3 d fr Hd Hf p4 p5 p6 p7 rest sr pm
                 Hb Hs Hp). eauto.
Qed.

Lemma day_line_yields_record_iff_witness :
  (exists r, day_data_of "Law" ("Day" :: "1" :: "Genesis" :: "1:3" :: ["Psalm"; "1"])
             = Ok (1, r))
  <-> (length ["Psalm"; "1"] <> 1%nat
       /\ (length ["Psalm"; "1"] = 3%nat ->
           exists p4, hd_error ["Psalm"; "1"] = Some p4
                      /\ mem (lower p4) poem_books = true)).
Proof.
  apply (day_line_yields_record_iff "Law" "Day" "1" "Genesis" "1:3" ["Psalm"; "1"] 1).
  - reflexivity.
  - repeat constructor.
Defined.

(** X10. Every record of the returned list has the five fields of a day
    record: an integer day, the period, a first reading that is a
    book/chapters/verses dict, a second reading that is such a dict or
    "none", and a poem that is such a dict or null. *)
Theorem records_well_shaped lines t :
  exists recs t',
    parse_text_to_json (Ok lines) t = (Ok (JArr recs), t')
    /\ Forall well_shaped recs.
Proof.
  destruct (parse_text_to_json_records lines t) as [t' H].
  exists (records "" lines), t'. split; [exact H|]. apply records_all_well_shaped.
Qed.

(** X11. The log accounts for every line: the parse adds the line that
    counts the input and then one line for each input line that is not
    blank, be it a header, a record, a warning or an error. *)
Theorem parse_log_accounts_for_lines lines t :
  exists v lg,
    parse_text_to_json (Ok lines) t = (v, t ++ lg)%list
    /\ length lg = S (length (filter (fun line => negb (all_space line)) lines))
    /\ sent_events lg = [].
Proof.
  assert (Hloop : forall ls st t0, exists x lg,
             for_each loop_body st ls t0 = (x, t0 ++ lg)%list
             /\ length lg = length (filter (fun line => negb (all_space line)) ls)
             /\ Forall (fun ev => exists lv msg, ev = Log lv msg) lg).
  { induction ls as [|line ls IH]; intros st t0; cbn [for_each filter].
    - exists (Ok st), []. unfold ret. rewrite app_nil_r. repeat split. constructor.
    - unfold bind.
      assert (exists x lg, loop_body st line t0 = (x, t0 ++ lg)%list
                /\ length lg = (if all_space line then 0 else 1)%nat
                /\ Forall (fun ev => exists lv msg, ev = Log lv msg) lg)
        as (x & lg & E & Hl & Hlog).
      { destruct st as [result period]. rewrite loop_body_run.
        pose proof (tokens_nil_iff line) as Hb.
        destruct (tokens line) as [|p0 ps] eqn:Et.
        - rewrite (proj1 Hb eq_refl). exists (Ok (result, period)), [].
          rewrite app_nil_r. repeat split. constructor.
        - destruct (all_space line); [discriminate (proj2 Hb eq_refl)|].
          destruct (negb (String.eqb (lower p0) "day"));
            [do 2 eexists; repeat split; repeat constructor; eauto|].
          rewrite day_line_run.
          destruct (length (p0 :: ps) <? 4)%nat;
            [do 2 eexists; repeat split; repeat constructor; eauto|].
          destruct (day_data_of period (p0 :: ps)) as [[n d]|e];
            do 2 eexists; repeat split; repeat constructor; unfold error_line; eauto. }
      rewrite E. destruct x as [st'|e].
      + destruct (IH st' (t0 ++ lg)%list) as (x' & lg' & E' & Hl' & Hlog').
        rewrite E'. exists x', (lg ++ lg')%list. rewrite app_assoc.
        split; [reflexivity|]. rewrite length_app, Hl, Hl'.
        split; [destruct (all_space line); reflexivity|now apply Forall_app].
      + exfalso. destruct st as [result period].
        destruct (loop_body_records result period line t0) as [t1 H1].
        rewrite H1 in E. discriminate E. }
  unfold parse_text_to_json, bind, lift, log.
  destruct (Hloop lines ([] : list json, "") (t ++ [Log INFO
    ("Read " ++ str_of_int (Z.of_nat (length lines)) ++ " lines from the file.")])%list)
    as (x & lg & E & Hl & Hlog).
  rewrite E. rewrite <- app_assoc.
  assert (Hs : forall l, Forall (fun ev => exists lv msg, ev = Log lv msg) l ->
                         sent_events l = []).
  { induction 1 as [|ev l (lv & msg & ->) _ IH]; simpl; auto. }
  destruct x as [[result p]|e]; do 2 eexists;
    (split; [reflexivity|]); simpl; rewrite Hl; split; auto.
Qed.

Lemma records_length lines : forall period,
  (length (records period lines) <= length (filter is_day_line lines))%nat.
Proof.
  induction lines as [|line rest IH]; intros period; cbn [records filter]; [simpl; lia|].
  destruct (is_header line) eqn:Hh.
  - specialize (IH (strip line)). destruct (is_day_line line); cbn [length]; lia.
  - specialize (IH period).
    destruct (line_record period line) as [r|] eqn:Hr.
    + assert (is_day_line line = true) as ->.
      { revert Hh Hr. unfold line_record, is_header, is_day_line.
        destruct (tokens line) as [|p0 ps]; [simpl; discriminate|].
        now destruct (String.eqb (lower p0) "day"). }
      cbn [length]. lia.
    + destruct (is_day_line line); cbn [length]; lia.
Qed.

(** X12. The list that [parse_text_to_json] returns has at most one record
    for each day line of the input: headers and blank lines add none, and
    no line adds two. *)
Theorem records_at_most_day_lines lines t :
  exists recs t',
    parse_text_to_json (Ok lines) t = (Ok (JArr recs), t')
    /\ (length recs <= length (filter is_day_line lines))%nat.
Proof.
  destruct (parse_text_to_json_records lines t) as [t' H].
  exists (records "" lines), t'. split; [exact H|apply records_length].
Qed.

(** ** The parser as a program *)

Section Program.

Variable read : string -> outcome (list string).
Variable write_error : string -> option exn.

Lemma main_run disk t :
  main read write_error disk t =
  match read "plan.txt" with
  | Raise e =>
      (Ok disk,
       t ++ [match exn_cls e with
             | FileNotFoundError => Log ERROR "Could not find input file: plan.txt"
             | _ => Log ERROR ("An error occurred: " ++ exn_msg e)
             end])%list
  | Ok lines =>
      let t' := snd (parse_text_to_json (Ok lines) t) in
      match write_error "reading_plan.json" with
      | None => (Ok (("reading_plan.json", JArr (records "" lines)) :: disk), t' ++ [saved])
      | Some e =>
          (Ok disk,
           t' ++ [match exn_cls e with
                  | FileNotFoundError => Log ERROR "Could not find input file: plan.txt"
                  | _ => Log ERROR ("An error occurred: " ++ exn_msg e)
                  end])
      end%list
  end.
Proof.
  unfold main, try_except, bind at 1.
  destruct (read "plan.txt") as [lines|e].
  - destruct (parse_text_to_json_records lines t) as [t' ->]. cbn [snd].
    unfold save_json_to_file.
    destruct (write_error "reading_plan.json") as [e|].
    + unfold raise. destruct (exn_cls e); reflexivity.
    + reflexivity.
  - rewrite parse_text_to_json_unreadable. destruct (exn_cls e); reflexivity.
Qed.

End Program.

(** X13. When the input is read and the output can be written, the program
    writes the records of the input, in input order, to
    "reading_plan.json", keeps what was written before, and ends its log
    with the line that says so. *)
Theorem main_writes_records read write_error lines disk t :
  read "plan.txt" = Ok lines ->
  write_error "reading_plan.json" = None ->
  exists t',
    main read write_error disk t
    = (Ok (("reading_plan.json", JArr (records "" lines)) :: disk), t' ++ [saved])%list.
Proof.
  intros Hr Hw. rewrite main_run, Hr, Hw. eauto.
Qed.

Lemma main_writes_records_witness :
  exists t',
    main sample_read (fun _ => None) [] []
    = (Ok (("reading_plan.json", JArr (records "" ["Law"; "Day 1 Genesis 1 Psalm 1"])) :: []),
       t' ++ [saved])%list.
Proof.
  apply (main_writes_records sample_read (fun _ => None)
           ["Law"; "Day 1 Genesis 1 Psalm 1"] [] []); reflexivity.
Defined.

(** X14. The program lets no exception out.  When the input cannot be read
    or the output cannot be opened it logs one error line, which is the
    last of the log, and the files are those of before; in the one other
    case the output holds the records of the input. *)
Theorem main_returns read write_error disk t :
  exists disk' t',
    main read write_error disk t = (Ok disk', t')
    /\ ((exists e, read "plan.txt" = Raise e) \/
        (exists e, write_error "reading_plan.json" = Some e) ->
        disk' = disk /\ exists t0 msg, t' = (t0 ++ [Log ERROR msg])%list)
    /\ (disk' = disk
        \/ exists lines,
             read "plan.txt" = Ok lines
             /\ write_error "reading_plan.json" = None
             /\ disk' = ("reading_plan.json", JArr (records "" lines)) :: disk).
Proof.
  rewrite main_run.
  destruct (read "plan.txt") as [lines|e] eqn:Hr.
  - destruct (write_error "reading_plan.json") as [e|] eqn:Hw; cbn zeta.
    + do 2 eexists. split; [reflexivity|]. split; [|now left].
      intros _. split; [reflexivity|]. destruct (exn_cls e); eauto.
    + do 2 eexists. split; [reflexivity|]. split; [|right; eauto].
      intros [[e He]|[e He]]; discriminate.
  - do 2 eexists. split; [reflexivity|]. split; [|now left].
    intros _. split; [reflexivity|]. destruct (exn_cls e); eauto.
Qed.

(** X15. A FileNotFoundError is always reported as a missing input file,
    also when the input was read and it is the opening of the output file
    that raised it. *)
Theorem main_output_not_found_blames_input read write_error lines e disk t :
  read "plan.txt" = Ok lines ->
  write_error "reading_plan.json" = Some e ->
  exn_cls e = FileNotFoundError ->
  exists t',
    main read write_error disk t
    = (Ok disk, t' ++ [Log ERROR "Could not find input file: plan.txt"])%list.
Proof.
  intros Hr Hw He. rewrite main_run, Hr, Hw, He. eauto.
Qed.

Lemma main_output_not_found_blames_input_witness :
  exists t',
    main sample_read no_directory [] []
    = (Ok [], t' ++ [Log ERROR "Could not find input file: plan.txt"])%list.
Proof.
  apply (main_output_not_found_blames_input sample_read no_directory
           ["Law"; "Day 1 Genesis 1 Psalm 1"]
           (Exn FileNotFoundError "[Errno 2] No such file or directory") [] []);
    reflexivity.
Defined.

(** ** Further properties of the announcer *)

Section Delivery.

Variable self : BibleBot.

Lemma sent_events_app (a b : trace) :
  sent_events (a ++ b)%list = (sent_events a ++ sent_events b)%list.
Proof.
  induction a as [|[lv msg|id m] a IH]; simpl; [reflexivity|exact IH|now rewrite IH].
Qed.

(** What the scan adds to the trace: nothing delivered, or the formatted
    text of the first entry of this day, accepted by the channel. *)
Lemma scan_delivery entries t :
  exists x lg,
    scan self (now self) (tm_yday (now self)) entries t = (x, t ++ lg)%list
    /\ (sent_events lg = []
        \/ exists pre entry post ch message,
             entries = (pre ++ entry :: post)%list
             /\ Forall (other_day self) pre
             /\ this_day self entry
             /\ format_daily_message entry (now self) = Ok message
             /\ get_channel self = Some ch
             /\ send_result ch message = None
             /\ sent_events lg = [(channel_id self, message)]).
Proof.
  induction entries as [|entry rest IH]; cbn [scan].
  - unfold log. do 2 eexists. split; [reflexivity|now left].
  - unfold bind, lift, log, channel_send.
    destruct (subscript entry "day") as [v|e] eqn:Hv;
      [|exists (Raise e), []; rewrite app_nil_r; split; [reflexivity|now left]].
    destruct (eq_int v (tm_yday (now self))) eqn:Hd.
    + destruct (format_daily_message entry (now self)) as [m|e] eqn:Hm;
        [|exists (Raise e), []; rewrite app_nil_r; split; [reflexivity|now left]].
      destruct (get_channel self) as [ch|] eqn:Hc;
        [|do 2 eexists; split; [reflexivity|now left]].
      destruct (send_result ch m) as [e|] eqn:Hs;
        [exists (Raise e), []; rewrite app_nil_r; split; [reflexivity|now left]|].
      rewrite <- app_assoc. do 2 eexists. split; [reflexivity|]. right.
      exists [], entry, rest, ch, m. repeat split; auto.
      now exists v.
    + destruct IH as (x & lg & -> & [H|(pre & en & post & ch & m & -> & Hpre & H)]);
        do 2 eexists; (split; [reflexivity|]); [now left|].
      right. exists (entry :: pre), en, post, ch, m. split; [reflexivity|].
      split; [|exact H]. constructor; [now exists v|exact Hpre].
Qed.

(** Only a list holds entries of this day: the keys of a dict and the
    characters of a string have no [day]. *)
Lemma iter_this_day data entries entry :
  iter data = Ok entries -> In entry entries -> this_day self entry ->
  data = JArr entries.
Proof.
  intros Hi Hin (v & Hv & _).
  destruct data as [|b|n|s|l|kvs]; try discriminate; cbn [iter] in Hi;
    injection Hi as <-; [exfalso|reflexivity|exfalso].
  - revert Hin. clear - Hv. induction s as [|c s IH]; cbn [chars In]; [tauto|].
    intros [<-|H]; [discriminate Hv|now apply IH].
  - apply in_map_iff in Hin as (kv & <- & _). discriminate Hv.
Qed.

End Delivery.

Lemma send_bible_message_delivery self t :
  exists lg,
    send_bible_message self t = (Ok tt, t ++ lg)%list
    /\ (sent_events lg = []
        \/ exists pre entry post ch message,
             bible_file self = Ok (JArr (pre ++ entry :: post))
             /\ Forall (other_day self) pre
             /\ this_day self entry
             /\ format_daily_message entry (now self) = Ok message
             /\ get_channel self = Some ch
             /\ send_result ch message = None
             /\ sent_events lg = [(channel_id self, message)]).
Proof.
  unfold send_bible_message, try_except, bind at 1.
  destruct (bible_file self) as [data|e] eqn:Hf.
  - rewrite (load_bible_data_ok _ _ t Hf). unfold bind, lift.
    destruct (iter data) as [entries|e] eqn:Hi.
    + destruct (scan_delivery self entries (t ++ [loaded self])%list)
        as (x & lg & -> & H).
      destruct x as [[]|e]; unfold log; rewrite <- ?app_assoc;
        eexists; (split; [reflexivity|]).
      all: rewrite !sent_events_app; unfold loaded; cbn [sent_events app];
        rewrite ?app_nil_r;
        (destruct H as [H|(pre & en & post & ch & m & -> & H0 & H1 & H2 & H3 & H4 & H5)];
         [now left|right; exists pre, en, post, ch, m]).
      all: rewrite (iter_this_day self data _ en Hi (in_elt en pre post) H1); auto 10.
    + unfold log. rewrite <- app_assoc. eexists. split; [reflexivity|now left].
  - destruct (load_bible_data_raise self e t Hf) as (lg & -> & Hlg).
    unfold log. rewrite <- app_assoc. eexists. split; [reflexivity|]. left.
    rewrite sent_events_app. cbn. rewrite app_nil_r.
    induction Hlg as [|ev l (msg & ->) _ IH]; simpl; auto.
Qed.

(** X16. A firing returns and delivers at most one message.  A delivered
    message goes to the configured channel and is the formatted text of
    the first entry of the readings array whose day is the day of the
    year, accepted by the channel. *)
Theorem at_most_one_message self t :
  exists lg,
    send_bible_message self t = (Ok tt, t ++ lg)%list
    /\ (sent_events lg = []
        \/ exists pre entry post ch message,
             bible_file self = Ok (JArr (pre ++ entry :: post))
             /\ Forall (other_day self) pre
             /\ this_day self entry
             /\ format_daily_message entry (now self) = Ok message
             /\ get_channel self = Some ch
             /\ send_result ch message = None
             /\ sent_events lg = [(channel_id self, message)]).
Proof.
  destruct (send_bible_message_delivery self t) as (lg & E & H).
  exists lg. split; [exact E|]. destruct H as [H|H]; [now left|now right].
Qed.

(** X17. When the channel id resolves to no channel the firing delivers
    nothing, whatever the readings file holds. *)
Theorem no_channel_no_message self t :
  get_channel self = None ->
  exists lg, send_bible_message self t = (Ok tt, t ++ lg)%list /\ sent_events lg = [].
Proof.
  intros Hc. destruct (send_bible_message_delivery self t) as (lg & E & [H|H]).
  - eauto.
  - destruct H as (? & ? & ? & ch & ? & _ & _ & _ & _ & Hch & _). congruence.
Qed.

Lemma no_channel_no_message_witness :
  exists lg,
    send_bible_message
      {| json_path := "reading_plan.json"; channel_id := 42;
         bible_file := Ok (JArr [sample_day 5 "Exodus"]);
         now := {| year := 2024; month_of := January; day_of := 5 |};
         get_channel := None |} []
    = (Ok tt, [] ++ lg)%list
    /\ sent_events lg = [].
Proof.
  apply (no_channel_no_message
           {| json_path := "reading_plan.json"; channel_id := 42;
              bible_file := Ok (JArr [sample_day 5 "Exodus"]);
              now := {| year := 2024; month_of := January; day_of := 5 |};
              get_channel := None |} []).
  reflexivity.
Defined.

(** X18. An entry without a usable [day] stops the scan: when it stands
    before the first entry of this day, the firing logs the exception and
    delivers nothing, though a matching entry follows. *)
Theorem malformed_entry_aborts self pre bad post e t :
  bible_file self = Ok (JArr (pre ++ bad :: post)) ->
  Forall (other_day self) pre ->
  subscript bad "day" = Raise e ->
  send_bible_message self t = (Ok tt, t ++ [loaded self; error_sending e])%list.
Proof.
  intros Hf Hpre Hbad.
  unfold send_bible_message, try_except, bind at 1.
  rewrite (load_bible_data_ok _ _ t Hf). unfold bind at 1, lift. cbn [iter].
  rewrite (scan_other_days self pre (bad :: post) _ Hpre). cbn [scan].
  unfold bind, lift, log. rewrite Hbad. now rewrite <- app_assoc.
Qed.

Lemma malformed_entry_aborts_witness :
  send_bible_message
    (sample_bot (JArr ([sample_day 4 "Genesis"]
                       ++ JObj [("period", JStr "Law")] :: [sample_day 5 "Exodus"]))) []
  = (Ok tt,
     [] ++ [loaded (sample_bot (JArr ([sample_day 4 "Genesis"]
                       ++ JObj [("period", JStr "Law")] :: [sample_day 5 "Exodus"])));
            error_sending (Exn KeyError (repr_str "day"))])%list.
Proof.
  apply (malformed_entry_aborts
           (sample_bot (JArr ([sample_day 4 "Genesis"]
                              ++ JObj [("period", JStr "Law")] :: [sample_day 5 "Exodus"])))
           [sample_day 4 "Genesis"] (JObj [("period", JStr "Law")])
           [sample_day 5 "Exodus"] (Exn KeyError (repr_str "day")) []).
  - reflexivity.
  - repeat constructor. eexists. split; reflexivity.
  - reflexivity.
Defined.

(** X19. A readings file whose top level is not an array never leads to a
    message: an object, a string, a number, true, false and null all end
    the firing with one log line after the load. *)
Theorem non_array_data_no_message self data t :
  bible_file self = Ok data ->
  (forall l, data <> JArr l) ->
  exists ev,
    send_bible_message self t = (Ok tt, t ++ [loaded self; ev])%list
    /\ exists lv msg, ev = Log lv msg.
Proof.
  intros Hf Hna.
  unfold send_bible_message, try_except, bind at 1.
  rewrite (load_bible_data_ok _ _ t Hf). unfold bind at 1, lift.
  destruct data as [|b|n|s|l|kvs]; cbn [iter];
    try (unfold log; rewrite <- app_assoc; eexists; split; [reflexivity|eauto]).
  - destruct s as [|c s]; cbn [chars scan]; unfold bind, lift, log; cbn [subscript];
      rewrite <- app_assoc; eexists; split; try reflexivity; eauto.
  - now elim (Hna l).
  - destruct kvs as [|[k v] kvs]; cbn [map scan fst]; unfold bind, lift, log;
      cbn [subscript]; rewrite <- app_assoc; eexists; split; try reflexivity; eauto.
Qed.

Lemma non_array_data_no_message_witness :
  exists ev,
    send_bible_message (sample_bot (JObj [("5", sample_day 5 "Exodus")])) []
    = (Ok tt, [] ++ [loaded (sample_bot (JObj [("5", sample_day 5 "Exodus")])); ev])%list
    /\ exists lv msg, ev = Log lv msg.
Proof.
  apply (non_array_data_no_message (sample_bot (JObj [("5", sample_day 5 "Exodus")]))
           (JObj [("5", sample_day 5 "Exodus")]) []).
  - reflexivity.
  - discriminate.
Defined.

Section Message.

Variable date : datetime.

Lemma join_items_strings sep l : forall i,
  exists text, join_items sep i (map JStr l) = Ok text.
Proof.
  induction l as [|x l IH]; intros i; [cbn; eauto|].
  destruct l as [|y l]; [cbn; eauto|].
  destruct (IH (S i)) as [r Hr].
  change (join_items sep i (map JStr (x :: y :: l)))
    with (obind (join_items sep (S i) (map JStr (y :: l)))
            (fun r => Ok (x ++ sep ++ r))).
  rewrite Hr. cbn [obind]. eauto.
Qed.

Lemma format_daily_message_formattable entry :
  formattable entry -> exists message, format_daily_message entry date = Ok message.
Proof.
  intros (day & period & first & book & chapters & second & poem & pbook & pchapters
          & Hd & Hp & Hf & Hb & Hc & Hs & Hpm & Hpb & Hpc).
  unfold format_daily_message.
  rewrite Hd, Hp, Hf, Hs, Hpm. cbn [obind]. rewrite Hb, Hc, Hpb, Hpc. cbn [obind].
  destruct (negb (eq_str (JStr second) "none")); cbn [obind app].
  - exact (join_items_strings newline [_; _; _; _; _; _; _; _; _; _; _; _] 0%nat).
  - exact (join_items_strings newline [_; _; _; _; _; _; _; _; _] 0%nat).
Qed.

End Message.

(** X20. [format_daily_message] returns a message exactly for the entries
    that have a day, a period, a first reading and a poem with book and
    chapters, and a second reading that is a string; on every other entry
    it raises. *)
Theorem format_daily_message_returns_iff entry date :
  (exists message, format_daily_message entry date = Ok message) <-> formattable entry.
Proof.
  split; [|apply format_daily_message_formattable].
  intros [message H]. unfold format_daily_message in H.
  destruct (subscript entry "day") as [day|] eqn:Hd; [|discriminate].
  destruct (subscript entry "period") as [period|] eqn:Hp; [|discriminate].
  destruct (subscript entry "first_reading") as [first|] eqn:Hf; [|discriminate].
  cbn [obind] in H.
  destruct (subscript first "book") as [book|] eqn:Hb; [|discriminate].
  destruct (subscript first "chapters") as [chapters|] eqn:Hc; [|discriminate].
  destruct (subscript entry "second_reading") as [second|] eqn:Hs; [|discriminate].
  cbn [obind] in H.
  destruct (subscript entry "poem") as [poem|] eqn:Hpm;
    [|remember (negb (eq_str second "none")) as b in H; destruct b; cbn [obind] in H;
      discriminate H].
  assert (Hpoem : exists pbook pchapters,
             subscript poem "book" = Ok pbook /\ subscript poem "chapters" = Ok pchapters).
  { remember (negb (eq_str second "none")) as b in H. clear Heqb.
    destruct b; cbn [obind] in H;
      (destruct (subscript poem "book"); cbn [obind] in H; [|discriminate H]);
      (destruct (subscript poem "chapters"); cbn [obind] in H; [|discriminate H]);
      eauto. }
  destruct Hpoem as (pbook & pchapters & Hpb & Hpc).
  assert (Hsecond : exists s, second = JStr s).
  { destruct second as [|b|n|s|l|kvs]; try (exists s; reflexivity);
      cbn [obind eq_str negb] in H; rewrite Hpb, Hpc in H; cbn in H; discriminate H. }
  destruct Hsecond as [s ->].
  exists day, period, first, book, chapters, s, poem, pbook, pchapters. auto 10.
Qed.

(** X21. With a second reading that is a string other than "none" the
    message has the Second Reading section with that string as its body,
    between the first reading and the poem. *)
Theorem format_string_second_reading n period date b c v s b' c' v' :
  s <> "none" ->
  format_daily_message
    (day_record n period (reading b c v) (JStr s) (reading b' c' v')) date
  = Ok (("# Bible in a Year Day " ++ str_of_int n ++ " (" ++ strftime_B_d date ++ ") "
         ++ period) ++ newline
        ++ "" ++ newline
        ++ "## Readings" ++ newline
        ++ "" ++ newline
        ++ "### First Reading" ++ newline
        ++ (b ++ " Chapter(s) " ++ c) ++ newline
        ++ "" ++ newline
        ++ "### Second Reading" ++ newline
        ++ s ++ newline
        ++ "" ++ newline
        ++ "### Poem" ++ newline
        ++ (b' ++ " " ++ c')).
Proof.
  intros Hs. unfold format_daily_message, day_record, reading.
  cbn [subscript lookup String.eqb Ascii.eqb Bool.eqb obind eq_str].
  destruct (String.eqb_spec s "none") as [->|_]; [now elim Hs|]. reflexivity.
Qed.

Lemma format_string_second_reading_witness :
  format_daily_message
    (day_record 5 "Law" (reading "Exodus" "2" "all") (JStr "Matthew 3")
       (reading "Proverbs" "4" "all"))
    {| year := 2024; month_of := January; day_of := 5 |}
  = Ok (("# Bible in a Year Day " ++ str_of_int 5 ++ " ("
         ++ strftime_B_d {| year := 2024; month_of := January; day_of := 5 |} ++ ") "
         ++ "Law") ++ newline
        ++ "" ++ newline
        ++ "## Readings" ++ newline
        ++ "" ++ newline
        ++ "### First Reading" ++ newline
        ++ ("Exodus" ++ " Chapter(s) " ++ "2") ++ newline
        ++ "" ++ newline
        ++ "### Second Reading" ++ newline
        ++ "Matthew 3" ++ newline
        ++ "" ++ newline
        ++ "### Poem" ++ newline
        ++ ("Proverbs" ++ " " ++ "4")).
Proof.
  apply (format_string_second_reading 5 "Law"
           {| year := 2024; month_of := January; day_of := 5 |}
           "Exodus" "2" "all" "Matthew 3" "Proverbs" "4" "all").
  discriminate.
Defined.

Section Pipeline.

Variable date : datetime.

Lemma format_well_shaped_iff r :
  well_shaped r ->
  (exists message, format_daily_message r date = Ok message)
  <-> (subscript r "second_reading" = Ok (JStr "none")
       /\ exists poem, subscript r "poem" = Ok poem /\ is_reading poem).
Proof.
  intros (n & period & first & second & poem & -> & Hf & Hs & Hp). split.
  - intros [message H].
    destruct Hp as [->|Hp]; [rewrite (format_null_poem n period date first second Hf) in H;
                             discriminate H|].
    destruct Hs as [->|Hs].
    + split; [reflexivity|]. exists poem. now split.
    + rewrite (format_dict_second_reading n period date first second poem Hf Hs Hp) in H.
      discriminate H.
  - intros [H (p & Hp' & Hr)]. cbn in H, Hp'. injection H as ->. injection Hp' as ->.
    destruct Hf as (b & c & v & ->). destruct Hr as (b' & c' & v' & ->).
    eexists. apply format_no_second_reading.
Qed.

End Pipeline.

(** X22. Of the records that the parser returns, the formatter accepts
    exactly those with no second reading and with a poem: a record with a
    second reading, or without a poem, cannot be announced. *)
Theorem parsed_records_announceable_iff lines date t :
  exists recs t',
    parse_text_to_json (Ok lines) t = (Ok (JArr recs), t')
    /\ Forall (fun r =>
                 (exists message, format_daily_message r date = Ok message)
                 <-> (subscript r "second_reading" = Ok (JStr "none")
                      /\ exists poem, subscript r "poem" = Ok poem /\ is_reading poem))
              recs.
Proof.
  destruct (parse_text_to_json_records lines t) as [t' H].
  exists (records "" lines), t'. split; [exact H|].
  apply Forall_impl with (P := well_shaped); [|apply records_all_well_shaped].
  intros r Hr. now apply format_well_shaped_iff.
Qed.

(** X23. A day line whose record the formatter accepts has a poem book as
    its fifth token and a reference after it: lines of one reading, and
    lines with a second reading, are parsed into records that no firing
    can announce. *)
Theorem announceable_line_has_poem_pair period line r date message :
  line_record period line = Some r ->
  format_daily_message r date = Ok message ->
  exists p0 p1 p2 p3 p4 p5 rest,
    tokens line = p0 :: p1 :: p2 :: p3 :: p4 :: p5 :: rest
    /\ mem (lower p4) poem_books = true.
Proof.
  unfold line_record. destruct (is_header line); [discriminate|].
  destruct (tokens line) as [|p0 [|p1 [|p2 [|p3 rest]]]]; try discriminate.
  cbn [length Nat.ltb Nat.leb].
  destruct (day_data_of period (p0 :: p1 :: p2 :: p3 :: rest)) as [[n d]|e] eqn:E;
    [|discriminate].
  intros H Hfmt. injection H as ->.
  destruct (int p1) as [k|e] eqn:Hd;
    [|unfold day_data_of in E; revert E; step; rewrite Hd; discriminate].
  destruct (create_reading p2 p3) as [fr|e] eqn:Hf;
    [|rewrite (day_data_raises_first period p0 p1 p2 p3 rest k e Hd Hf) in E; discriminate E].
  pose proof (create_reading_shape _ _ _ Hf) as Hfr.
  destruct rest as [|p4 [|p5 rest]].
  - rewrite (day_data_first_only period p0 p1 p2 p3 k fr Hd Hf) in E. injection E as _ <-.
    rewrite format_null_poem in Hfmt; [discriminate Hfmt|].
    destruct Hfr as (c & v & ->). now exists p2, c, v.
  - rewrite (day_data_five_tokens period p0 p1 p2 p3 k fr Hd Hf) in E. discriminate E.
  - destruct (mem (lower p4) poem_books) eqn:Hb; [now exists p0, p1, p2, p3, p4, p5, rest|].
    exfalso.
    destruct (create_reading p4 p5) as [sr|e] eqn:Hs;
      [|rewrite (day_data_raises_second period p0 p1 p2 p3 p4 p5 rest k fr e Hd Hf Hs) in E;
        discriminate E].
    pose proof (day_data_of_well_shaped _ _ _ _ _ _ _ _ E) as Hw.
    apply (format_well_shaped_iff date) in Hw.
    destruct (proj1 Hw (ex_intro _ message Hfmt)) as [Hnone _].
    revert E Hnone. unfold day_data_of. step. rewrite Hd. step. rewrite Hf. step.
    rewrite Hb, Hs. step.
    destruct (create_reading_shape _ _ _ Hs) as (c & v & ->).
    destruct rest as [|p6 [|p7 rest]]; step; try discriminate.
    + intros E. injection E as _ <-. discriminate.
    + destruct (create_reading p6 p7); step; [|discriminate].
      intros E. injection E as _ <-. discriminate.
Qed.

Lemma announceable_line_has_poem_pair_witness :
  exists p0 p1 p2 p3 p4 p5 rest,
    tokens "Day 1 Genesis 1:3 Psalm 1" = p0 :: p1 :: p2 :: p3 :: p4 :: p5 :: rest
    /\ mem (lower p4) poem_books = true.
Proof.
  eapply (announceable_line_has_poem_pair "Law" "Day 1 Genesis 1:3 Psalm 1" _
            {| year := 2024; month_of := January; day_of := 1 |}).
  - reflexivity.
  - reflexivity.
Defined.

Section DayOfYear.

Lemma tm_yday_range date :
  valid_date date ->
  1 <= tm_yday date <= (if is_leap (year date) then 366 else 365).
Proof.
  unfold valid_date, tm_yday, days_before_month, days_in_month.
  destruct date as [y m d]; cbn [year month_of day_of].
  destruct (is_leap y); destruct m; lia.
Qed.

End DayOfYear.

(** X24. The day of the year of a valid date lies between 1 and 366, so
    entries whose day is below 1 or above 366, which the parser accepts,
    are never announced: a file of such entries ends every firing with the
    warning. *)
Theorem out_of_range_days_never_announced self entries t :
  valid_date (now self) ->
  bible_file self = Ok (JArr entries) ->
  Forall (fun entry => exists n,
              subscript entry "day" = Ok (JInt n) /\ (n < 1 \/ 366 < n)) entries ->
  send_bible_message self t
  = (Ok tt,
     t ++ [loaded self;
           Log WARNING ("No reading found for day " ++ str_of_int (tm_yday (now self)))])%list.
Proof.
  intros Hv Hf Hout.
  assert (Hother : Forall (other_day self) entries).
  { apply Forall_impl with (2 := Hout). intros entry (n & Hn & Hr).
    exists (JInt n). split; [exact Hn|]. cbn [eq_int].
    pose proof (tm_yday_range _ Hv) as Hy.
    destruct (is_leap (year (now self))); apply Z.eqb_neq; lia. }
  unfold send_bible_message, try_except, bind at 1.
  rewrite (load_bible_data_ok _ _ _ Hf). unfold bind, lift. cbn [iter].
  rewrite (scan_no_match self entries _ Hother). now rewrite <- app_assoc.
Qed.

Lemma out_of_range_days_never_announced_witness :
  send_bible_message (sample_bot (JArr [sample_day 0 "Genesis"; sample_day 367 "Exodus"])) []
  = (Ok tt,
     [] ++ [loaded (sample_bot (JArr [sample_day 0 "Genesis"; sample_day 367 "Exodus"]));
            Log WARNING
              ("No reading found for day "
               ++ str_of_int
                    (tm_yday (now (sample_bot
                                     (JArr [sample_day 0 "Genesis";
                                            sample_day 367 "Exodus"])))))])%list.
Proof.
  apply (out_of_range_days_never_announced
           (sample_bot (JArr [sample_day 0 "Genesis"; sample_day 367 "Exodus"]))
           [sample_day 0 "Genesis"; sample_day 367 "Exodus"] []).
  - unfold valid_date. simpl. lia.
  - reflexivity.
  - repeat constructor; eexists; (split; [reflexivity|]); lia.
Defined.

(** ** The configuration *)

Section Config.

Variable config_path : string.

Lemma check_fields_dict kvs fields :
  check_fields (JObj kvs) fields =
  match find (fun f => match lookup f kvs with Some _ => false | None => true end) fields with
  | Some field => Raise (missing field)
  | None => Ok tt
  end.
Proof.
  induction fields as [|f fields IH]; cbn [check_fields find contains_item obind];
    [reflexivity|].
  destruct (lookup f kvs); cbn [negb]; [exact IH|reflexivity].
Qed.

Lemma load_config_ok config_file config :
  load_config config_file config_path = Ok config ->
  config_file = Ok config /\ check_fields config required_fields = Ok tt.
Proof.
  unfold load_config. destruct config_file as [c|e]; cbn [obind].
  - destruct (check_fields c required_fields) as [[]|e] eqn:E; cbn [obind].
    + intros H. injection H as ->. now split.
    + destruct (exn_cls e); discriminate.
  - destruct (exn_cls e); discriminate.
Qed.

Lemma subscript_dict_only v k x : subscript v k = Ok x -> exists kvs, v = JObj kvs.
Proof. destruct v; try discriminate. eauto. Qed.

End Config.

(** X25. [load_config] returns the decoded file unchanged, and when what
    it returns is a dict, each of the four required fields can be read
    from it. *)
Theorem load_config_checked config_file config_path kvs :
  load_config config_file config_path = Ok (JObj kvs) ->
  config_file = Ok (JObj kvs)
  /\ Forall (fun field => exists v, subscript (JObj kvs) field = Ok v) required_fields.
Proof.
  intros H. apply load_config_ok in H as [Hf Hc]. split; [exact Hf|].
  rewrite check_fields_dict in Hc. unfold required_fields in *. cbn [find] in Hc.
  destruct (lookup "token" kvs) eqn:H1; [|discriminate].
  destruct (lookup "channel_id" kvs) eqn:H2; [|discriminate].
  destruct (lookup "timezone" kvs) eqn:H3; [|discriminate].
  destruct (lookup "json_file_path" kvs) eqn:H4; [|discriminate].
  repeat (apply Forall_cons;
          [cbn [subscript]; rewrite ?H1, ?H2, ?H3, ?H4; eexists; reflexivity|]).
  apply Forall_nil.
Qed.

Lemma load_config_checked_witness :
  Ok sample_config = Ok sample_config
  /\ Forall (fun field => exists v, subscript sample_config field = Ok v) required_fields.
Proof.
  apply (load_config_checked (Ok sample_config) "config.json"
           [("token", JStr "secret"); ("channel_id", JInt 42);
            ("timezone", JStr "UTC"); ("json_file_path", JStr "reading_plan.json")]).
  reflexivity.
Defined.

(** X26. For a dict with a required field missing, [load_config] raises
    KeyError with the name of the first missing field in the order token,
    channel_id, timezone, json_file_path. *)
Theorem load_config_first_missing kvs before field rest config_path :
  required_fields = (before ++ field :: rest)%list ->
  Forall (fun f => exists v, lookup f kvs = Some v) before ->
  lookup field kvs = None ->
  load_config (Ok (JObj kvs)) config_path = Raise (missing field).
Proof.
  intros Hr Hb Hm. unfold load_config. cbn [obind].
  rewrite check_fields_dict, Hr.
  assert (find (fun f => match lookup f kvs with Some _ => false | None => true end)
            (before ++ field :: rest) = Some field) as ->.
  { clear Hr. induction Hb as [|f before (v & Hv) _ IH]; cbn [app find].
    - rewrite Hm. reflexivity.
    - rewrite Hv. exact IH. }
  reflexivity.
Qed.

Lemma load_config_first_missing_witness :
  load_config (Ok (JObj [("token", JStr "secret"); ("json_file_path", JStr "plan.json")]))
    "config.json"
  = Raise (missing "channel_id").
Proof.
  apply (load_config_first_missing
           [("token", JStr "secret"); ("json_file_path", JStr "plan.json")]
           ["token"] "channel_id" ["timezone"; "json_file_path"] "config.json").
  - reflexivity.
  - repeat constructor. eexists. reflexivity.
  - reflexivity.
Defined.

(** X27. [load_config] never raises JSONDecodeError: a file that does not
    decode gives ValueError with the path in its text, and the
    FileNotFoundError that it raises always carries the path of the
    configuration. *)
Theorem load_config_translates config_file config_path e :
  load_config config_file config_path = Raise e ->
  exn_cls e <> JSONDecodeError
  /\ (exn_cls e = FileNotFoundError ->
      exn_msg e = "Config file not found at " ++ config_path)
  /\ (forall e0, config_file = Raise e0 -> exn_cls e0 = JSONDecodeError ->
      e = Exn ValueError ("Invalid JSON format in config file: " ++ config_path)).
Proof.
  unfold load_config. destruct config_file as [c|e0]; cbn [obind].
  - assert (Hc : forall fields x, check_fields c fields = Raise x ->
                                  exn_cls x = KeyError \/ exn_cls x = TypeError).
    { induction fields as [|f fields IH]; intros x; cbn [check_fields]; [discriminate|].
      destruct (contains_item f c) as [b|e1] eqn:Ec; cbn [obind].
      - destruct b; cbn [negb]; [apply IH|].
        intros H. injection H as <-. now left.
      - intros H. injection H as <-. right.
        destruct c; try discriminate; cbn in Ec; injection Ec as <-; reflexivity. }
    destruct (check_fields c required_fields) as [[]|x] eqn:E; cbn [obind]; [discriminate|].
    destruct (Hc _ _ E) as [Hk|Hk]; rewrite Hk; intros H; injection H as <-;
      rewrite Hk; repeat split; try discriminate.
  - destruct (exn_cls e0) eqn:E0; intros H; injection H as <-; cbn [exn_cls exn_msg];
      rewrite ?E0; repeat split; try discriminate; try reflexivity;
      intros e1 He1; injection He1 as <-; congruence.
Qed.

Lemma load_config_translates_witness :
  exn_cls (Exn ValueError ("Invalid JSON format in config file: " ++ "config.json"))
  <> JSONDecodeError
  /\ (exn_cls (Exn ValueError ("Invalid JSON format in config file: " ++ "config.json"))
      = FileNotFoundError ->
      exn_msg (Exn ValueError ("Invalid JSON format in config file: " ++ "config.json"))
      = "Config file not found at " ++ "config.json")
  /\ (forall e0,
        @Raise json (Exn JSONDecodeError "Expecting value: line 1 column 1 (char 0)")
        = Raise e0 ->
        exn_cls e0 = JSONDecodeError ->
        Exn ValueError ("Invalid JSON format in config file: " ++ "config.json")
        = Exn ValueError ("Invalid JSON format in config file: " ++ "config.json")).
Proof.
  apply (load_config_translates
           (Raise (Exn JSONDecodeError "Expecting value: line 1 column 1 (char 0)"))
           "config.json"
           (Exn ValueError ("Invalid JSON format in config file: " ++ "config.json"))).
  reflexivity.
Defined.

Section Construction.

Variable tzinfo : Type.
Variable pytz_timezone : json -> outcome tzinfo.
Variable config_path : string.

Lemma load_config_dict kvs token ch zone p :
  lookup "token" kvs = Some token ->
  lookup "channel_id" kvs = Some ch ->
  lookup "timezone" kvs = Some zone ->
  lookup "json_file_path" kvs = Some p ->
  load_config (Ok (JObj kvs)) config_path = Ok (JObj kvs).
Proof.
  intros H1 H2 H3 H4. unfold load_config. cbn [obind].
  rewrite check_fields_dict. unfold required_fields. cbn [find].
  now rewrite H1, H2, H3, H4.
Qed.

Lemma existsb_item field l :
  In (JStr field) l -> existsb (fun item => eq_str item field) l = true.
Proof.
  intros H. apply existsb_exists. exists (JStr field). split; [exact H|].
  apply String.eqb_refl.
Qed.

End Construction.

(** X28. The check of the required fields does not ask for a dict: a JSON
    array that holds the four field names as strings passes [load_config],
    and the construction of the bot then fails with TypeError at the first
    field it reads. *)
Theorem list_config_fails_late tzinfo pytz_timezone l config_path :
  Forall (fun field => In (JStr field) l) required_fields ->
  load_config (Ok (JArr l)) config_path = Ok (JArr l)
  /\ init tzinfo pytz_timezone (Ok (JArr l)) config_path
     = Raise (Exn TypeError "list indices must be integers or slices, not str").
Proof.
  intros H.
  assert (E : load_config (Ok (JArr l)) config_path = Ok (JArr l)).
  { unfold load_config, required_fields in *. cbn [obind check_fields contains_item].
    inversion H as [|? ? H1 H']; subst. inversion H' as [|? ? H2 H'']; subst.
    inversion H'' as [|? ? H3 H''']; subst. inversion H''' as [|? ? H4 _]; subst.
    now rewrite !existsb_item. }
  split; [exact E|]. unfold init. now rewrite E.
Qed.

Lemma list_config_fails_late_witness :
  load_config (Ok (JArr [JStr "token"; JStr "channel_id"; JStr "timezone";
                         JStr "json_file_path"])) "config.json"
  = Ok (JArr [JStr "token"; JStr "channel_id"; JStr "timezone"; JStr "json_file_path"])
  /\ init string utc_only
       (Ok (JArr [JStr "token"; JStr "channel_id"; JStr "timezone";
                  JStr "json_file_path"])) "config.json"
     = Raise (Exn TypeError "list indices must be integers or slices, not str").
Proof.
  apply (list_config_fails_late string utc_only
           [JStr "token"; JStr "channel_id"; JStr "timezone"; JStr "json_file_path"]
           "config.json").
  repeat (apply Forall_cons; [simpl; auto 6|]). apply Forall_nil.
Defined.

(** X29. The bot is constructed exactly when the configuration decodes to
    a dict with the four fields, the readings path is a string and the
    time zone is known; token and channel id are taken as they are,
    whatever their type, and the readings path is kept in the normal form
    of [Path]. *)
Theorem init_returns_iff tzinfo pytz_timezone config_file config_path attrs :
  init tzinfo pytz_timezone config_file config_path = Ok attrs
  <-> exists kvs token ch zone p tz,
        config_file = Ok (JObj kvs)
        /\ lookup "token" kvs = Some token
        /\ lookup "channel_id" kvs = Some ch
        /\ lookup "timezone" kvs = Some zone
        /\ lookup "json_file_path" kvs = Some (JStr p)
        /\ pytz_timezone zone = Ok tz
        /\ attrs = {| self_config := JObj kvs; self_token := token;
                      self_channel_id := ch; self_json_path := posix_str p;
                      self_timezone := tz |}.
Proof.
  split.
  - unfold init.
    destruct (load_config config_file config_path) as [config|e] eqn:HL; [|discriminate].
    apply load_config_ok in HL as [Hf _]. cbn [obind].
    destruct (subscript config "token") as [token|e] eqn:H1; [|discriminate].
    destruct (subscript_dict_only _ _ _ H1) as [kvs ->]. cbn [obind subscript] in *.
    destruct (lookup "token" kvs) as [token'|] eqn:L1; [|discriminate]. injection H1 as ->.
    destruct (lookup "channel_id" kvs) as [ch|] eqn:L2; [|discriminate]. cbn [obind].
    destruct (lookup "json_file_path" kvs) as [p|] eqn:L4; [|discriminate]. cbn [obind].
    destruct p as [|b|n|p|l|kvs']; try discriminate. cbn [Path obind].
    destruct (lookup "timezone" kvs) as [zone|] eqn:L3; [|discriminate]. cbn [obind].
    destruct (pytz_timezone zone) as [tz|e] eqn:Hz; [|discriminate]. cbn [obind].
    intros H. injection H as <-. exists kvs, token, ch, zone, p, tz.
    repeat split; assumption.
  - intros (kvs & token & ch & zone & p & tz & -> & H1 & H2 & H3 & H4 & Hz & ->).
    unfold init. rewrite (load_config_dict config_path kvs _ _ _ _ H1 H2 H3 H4).
    cbn [obind subscript]. rewrite H1, H2, H4. cbn [obind Path]. rewrite H3. cbn [obind].
    now rewrite Hz.
Qed.

(** X30. The path on which a message goes out: when the first entry of
    this day has no second reading and has a poem, and the channel accepts
    the text, the firing delivers the nine-line message to the configured
    channel once and logs the success after it. *)
Theorem poem_record_announced self pre post n period b c v b' c' v' ch t :
  bible_file self
  = Ok (JArr (pre ++ day_record n period (reading b c v) (JStr "none") (reading b' c' v')
                :: post)) ->
  Forall (other_day self) pre ->
  n = tm_yday (now self) ->
  get_channel self = Some ch ->
  (forall content, send_result ch content = None) ->
  send_bible_message self t
  = (Ok tt,
     t ++ [loaded self;
           Sent (channel_id self)
             (("# Bible in a Year Day " ++ str_of_int n ++ " ("
               ++ strftime_B_d (now self) ++ ") " ++ period) ++ newline
              ++ "" ++ newline
              ++ "## Readings" ++ newline
              ++ "" ++ newline
              ++ "### First Reading" ++ newline
              ++ (b ++ " Chapter(s) " ++ c) ++ newline
              ++ "" ++ newline
              ++ "### Poem" ++ newline
              ++ (b' ++ " " ++ c'));
           Log INFO ("Successfully sent Bible reading for day " ++ str_of_int n)])%list.
Proof.
  intros Hf Hpre -> Hch Hsend.
  rewrite (send_bible_message_first_match self pre _ post t Hf Hpre).
  - unfold announce. rewrite format_no_second_reading, Hch, Hsend.
    now rewrite <- app_assoc.
  - exists (JInt (tm_yday (now self))). split; [reflexivity|]. apply Z.eqb_refl.
Qed.

Lemma poem_record_announced_witness :
  send_bible_message duplicate_days []
  = (Ok tt,
     [] ++ [loaded duplicate_days;
            Sent (channel_id duplicate_days)
              (("# Bible in a Year Day " ++ str_of_int 5 ++ " ("
                ++ strftime_B_d (now duplicate_days) ++ ") " ++ "Law") ++ newline
               ++ "" ++ newline
               ++ "## Readings" ++ newline
               ++ "" ++ newline
               ++ "### First Reading" ++ newline
               ++ ("Exodus" ++ " Chapter(s) " ++ "1") ++ newline
               ++ "" ++ newline
               ++ "### Poem" ++ newline
               ++ ("Psalm" ++ " " ++ "1"));
            Log INFO ("Successfully sent Bible reading for day " ++ str_of_int 5)])%list.
Proof.
  apply (poem_record_announced duplicate_days [sample_day 4 "Genesis"]
           [sample_day 5 "Leviticus"] 5 "Law" "Exodus" "1" "all" "Psalm" "1" "all"
           {| send_result := fun _ => None |} []).
  - reflexivity.
  - repeat constructor. eexists. split; reflexivity.
  - reflexivity.
  - reflexivity.
  - reflexivity.
Defined.
